(** * Wrist Aura storefront script: cart store, cart operations, filter engine

    A shallow embedding of [src/Project/script.js], and what holds of it.

    - [Str]      the string methods the script calls ([toLowerCase], [trim],
                 [includes], [replace(/-/g, ' ')]);
    - [Num]      the numbers of the script: [parseFloat], [isNaN],
                 [quantity += 1], [quantity -= 1], [quantity <= 0];
    - [JSON]     [JSON.stringify] and [JSON.parse] on JSON text;
    - [Browser]  [localStorage], the console, the drawers of the page, and
                 the monad of the calls that touch them;
    - [Cart]     [getCart], [saveCart], [addToCart], [removeFromCart],
                 [decrementQuantity], [placeOrder];
    - [Badge]    the item count of [updateCartBadge], the badge and the
                 checkout button;
    - [Drawers]  [toggleProfileDrawer], [toggleSearchBar] and the handlers
                 of the search button, the backdrop and the Escape key;
    - [Filter]   [performSearch], [filterByCategory], [applyFilters].

    The properties follow the definitions: [NumProps], [JSONProps],
    [CartProps], [FilterProps], then [BadgeProps], [OperationProps],
    [StoreProps], [DrawerProps] and [SearchProps].

    Conventions of the embedding.  A string is a sequence of 8-bit units
    (ASCII text; the UTF-8 form of anything else), so case mapping and white
    space are the ASCII ones.  A finite number is an exact decimal: binary64
    rounding, overflow and the sign of zero are not represented, and a finite
    number is always printed positionally.  The embedding follows the script
    exactly on plain data ([Str.is_ascii], [Num.plain], [JSON.plain],
    [Cart.plainItem]): text of 7-bit units, integers below 2^53 in size and
    decimals of at most 15 significant digits that are at least 10^-6 in
    size.  What is stated of numbers or of text is stated of plain data,
    unless it holds of the script for every number and every text.  Objects
    keep their keys in textual
    order.  A cart in memory is a list of [LineItem] records; on a stored
    array that is not made of such records the cart functions end in
    [Beyond].  Of [renderCart] and [updateCartBadge] the reading of the cart
    is kept and the markup is not; what [updateCartBadge] writes to the badge
    and to the checkout button is given apart, in [Badge].  The page elements
    the script dereferences without a guard in the cart functions
    ([cartDrawer], [profileDrawerBackdrop]) exist, as its own comment on the
    DOM references says; the others are optional, and [toggleProfileDrawer]
    and [toggleSearchBar] end in a [TypeError] on a page without theirs. *)

From Stdlib Require Import ZArith NArith Ascii String Bool List Lia.
From stdpp Require Import base option list strings gmap.

Local Open Scope N_scope.

(** ** Strings *)

Module Str.

Definition code (c : ascii) : N := N_of_ascii c.
Definition chr (n : N) : ascii := ascii_of_N n.

Definition is_upper (c : ascii) : bool := (65 <=? code c) && (code c <=? 90).

Definition lower (c : ascii) : ascii :=
  if is_upper c then chr (code c + 32) else c.

(** [s.toLowerCase()] *)
Fixpoint toLowerCase (s : string) : string :=
  match s with
  | EmptyString => EmptyString
  | String c r => String (lower c) (toLowerCase r)
  end.

(** White space of [trim] and of [parseFloat]: TAB, LF, VT, FF, CR, SP. *)
Definition is_white (c : ascii) : bool :=
  ((9 <=? code c) && (code c <=? 13)) || (code c =? 32).

Fixpoint trimStart (s : string) : string :=
  match s with
  | EmptyString => EmptyString
  | String c r => if is_white c then trimStart r else s
  end.

Definition trimEnd (s : string) : string :=
  String.rev (trimStart (String.rev s)).

(** [s.trim()] *)
Definition trim (s : string) : string := trimEnd (trimStart s).

(** [s.startsWith(p)] *)
Fixpoint startsWith (s p : string) : bool :=
  match p, s with
  | EmptyString, _ => true
  | String _ _, EmptyString => false
  | String a p', String b s' => Ascii.eqb a b && startsWith s' p'
  end.

(** [s.includes(q)] *)
Fixpoint includes (s q : string) : bool :=
  startsWith s q ||
  match s with
  | EmptyString => false
  | String _ r => includes r q
  end.

(** [s.replace(/-/g, ' ')] *)
Fixpoint dashesToSpaces (s : string) : string :=
  match s with
  | EmptyString => EmptyString
  | String c r =>
      String (if Ascii.eqb c "-" then " "%char else c) (dashesToSpaces r)
  end.

(** Every unit of [s] satisfies [P]. *)
Fixpoint all_chars (P : ascii -> bool) (s : string) : bool :=
  match s with
  | EmptyString => true
  | String c r => P c && all_chars P r
  end.

(** A string in a boolean position: only the empty string is falsy. *)
Definition truthy (s : string) : bool := negb (String.eqb s "").

(** Text of 7-bit units only.  On such text the case mapping and the white
    space of this module are those of the script. *)
Definition is_ascii (s : string) : bool :=
  all_chars (fun c => code c <? 128) s.

End Str.

(** ** Numbers *)

Module Num.

(** The last digit of a mantissa that is not a multiple of ten. *)
Inductive nzdigit := D1 | D2 | D3 | D4 | D5 | D6 | D7 | D8 | D9.

Definition nz_val (r : nzdigit) : N :=
  match r with
  | D1 => 1 | D2 => 2 | D3 => 3 | D4 => 4 | D5 => 5
  | D6 => 6 | D7 => 7 | D8 => 8 | D9 => 9
  end.

Definition nz_of (n : N) : option nzdigit :=
  match n with
  | 1 => Some D1 | 2 => Some D2 | 3 => Some D3 | 4 => Some D4 | 5 => Some D5
  | 6 => Some D6 | 7 => Some D7 | 8 => Some D8 | 9 => Some D9
  | _ => None
  end.

(** A finite number, in its only form: an integer, or
    [DFrac neg q r k] for (+/-) (10 q + r) / 10^(k+1) with [r] not zero. *)
Inductive decimal :=
| DInt (z : Z)
| DFrac (neg : bool) (q : N) (r : nzdigit) (k : nat).

(** A JavaScript number. *)
Inductive number :=
| NaN
| Infinity (neg : bool)
| Fin (d : decimal).

Definition mantissa (neg : bool) (q : N) (r : nzdigit) : Z :=
  let m := Z.of_N (10 * q + nz_val r) in
  if neg then (- m)%Z else m.

(** [to_pair d = (m, e)] when [d] is m / 10^e. *)
Definition to_pair (d : decimal) : Z * nat :=
  match d with
  | DInt z => (z, O)
  | DFrac neg q r k => (mantissa neg q r, S k)
  end.

(** m / 10^e in lowest form. *)
Fixpoint of_pair (m : Z) (e : nat) : decimal :=
  match e with
  | O => DInt m
  | S e' =>
      match nz_of (Z.abs_N m mod 10) with
      | Some r => DFrac (m <? 0)%Z (Z.abs_N m / 10) r e'
      | None => of_pair (Z.quot m 10) e'
      end
  end.

(** m * 10^x *)
Definition scaled (m : Z) (x : Z) : decimal :=
  if (0 <=? x)%Z then DInt (m * 10 ^ x) else of_pair m (Z.to_nat (- x)).

(** [d + n] for an integer [n]. *)
Definition add_int (d : decimal) (n : Z) : decimal :=
  let (m, e) := to_pair d in
  of_pair (m + n * 10 ^ Z.of_nat e) e.

(** [x + 1] *)
Definition succ (x : number) : number :=
  match x with
  | Fin d => Fin (add_int d 1)
  | _ => x
  end.

(** [x - 1] *)
Definition pred (x : number) : number :=
  match x with
  | Fin d => Fin (add_int d (-1))
  | _ => x
  end.

(** [x <= 0] *)
Definition lez (x : number) : bool :=
  match x with
  | NaN => false
  | Infinity neg => neg
  | Fin d => (fst (to_pair d) <=? 0)%Z
  end.

(** [isNaN(x)] *)
Definition isNaN (x : number) : bool :=
  match x with NaN => true | _ => false end.

(** [isFinite(x)] *)
Definition isFinite (x : number) : bool :=
  match x with Fin _ => true | _ => false end.


Definition of_Z (z : Z) : number := Fin (DInt z).

(** *** Decimal digits *)

Definition digit_char (d : N) : ascii := Str.chr (48 + d).

Definition digit_of (c : ascii) : option N :=
  if (48 <=? Str.code c) && (Str.code c <=? 57)
  then Some (Str.code c - 48) else None.

(** The last [w] digits of [n], most significant first. *)
Fixpoint digits (w : nat) (n : N) : list N :=
  match w with
  | O => []
  | S w' => digits w' (n / 10) ++ [n mod 10]
  end.

Definition text (ds : list N) : string :=
  fold_right (fun d s => String (digit_char d) s) EmptyString ds.

Definition fixed (w : nat) (n : N) : string := text (digits w n).

Fixpoint width_aux (fuel : nat) (n : N) : nat :=
  match fuel with
  | O => 1%nat
  | S f => if n <? 10 then 1%nat else S (width_aux f (n / 10))
  end.

(** The number of digits of [n]. *)
Definition width (n : N) : nat := width_aux (N.to_nat (N.log2 n)) n.

Definition print_N (n : N) : string := fixed (width n) n.

(** [String(x)] for a finite [x], and its form in JSON text. *)
Definition print (d : decimal) : string :=
  match d with
  | DInt z =>
      (if (z <? 0)%Z then "-" else "") +:+ print_N (Z.abs_N z)
  | DFrac neg q r k =>
      let m := 10 * q + nz_val r in
      let p := 10 ^ N.of_nat (S k) in
      (if neg then "-" else "") +:+ print_N (m / p) +:+ "." +:+
      fixed (S k) (m mod p)
  end.

(** The longest run of digits at the head of [s], and what follows. *)
Fixpoint scan_digits (s : string) : list N * string :=
  match s with
  | EmptyString => ([], EmptyString)
  | String c r =>
      match digit_of c with
      | Some d => let (ds, rest) := scan_digits r in (d :: ds, rest)
      | None => ([], s)
      end
  end.

Definition value (ds : list N) : N :=
  fold_left (fun a d => 10 * a + d) ds 0.

Definition signed (neg : bool) (n : N) : Z :=
  if neg then (- Z.of_N n)%Z else Z.of_N n.

(** The number written with integer digits [ids], fraction digits [fds] and
    exponent [x]. *)
Definition assemble (neg : bool) (ids fds : list N) (x : Z) : decimal :=
  scaled (signed neg (value (ids ++ fds))) (x - Z.of_nat (length fds)).

(** [s] without its first unit, when that is [c]. *)
Definition eat (c : ascii) (s : string) : option string :=
  match s with
  | String x t => if Ascii.eqb x c then Some t else None
  | EmptyString => None
  end.

(** A leading [-]. *)
Definition minus (s : string) : bool * string :=
  match eat "-" s with
  | Some t => (true, t)
  | None => (false, s)
  end.

(** A leading [-] or [+]. *)
Definition sign (s : string) : bool * string :=
  match eat "-" s with
  | Some t => (true, t)
  | None =>
      match eat "+" s with
      | Some t => (false, t)
      | None => (false, s)
      end
  end.

(** An exponent part, [e] or [E] with an optional sign and at least one
    digit; [None] when [s] does not start with one. *)
Definition scan_exponent (s : string) : option (Z * string) :=
  match (if eat "e" s is Some r then Some r else eat "E" s) with
  | Some r =>
      let (neg, r') := sign r in
      match scan_digits r' with
      | ([], _) => None
      | (ds, rest) => Some (signed neg (value ds), rest)
      end
  | None => None
  end.

(** A fraction part, [.] and at least one digit; no digits when [s] does not
    start with [.], and [None] when no digit follows the [.]. *)
Definition scan_fraction (s : string) : option (list N * string) :=
  match eat "." s with
  | Some t =>
      match scan_digits t with
      | ([], _) => None
      | r => Some r
      end
  | None => Some ([], s)
  end.

(** The integer digits of a JSON number: at least one, and no zero before
    another digit. *)
Definition integer_part (ids : list N) : bool :=
  match ids with
  | [] => false
  | [_] => true
  | d :: _ => negb (d =? 0)
  end.

(** A number of the JSON grammar at the head of [s], and what follows. *)
Definition scan_json (s : string) : option (decimal * string) :=
  let (neg, s1) := minus s in
  let (ids, s2) := scan_digits s1 in
  if integer_part ids then
    match scan_fraction s2 with
    | Some (fds, s3) =>
        match scan_exponent s3 with
        | Some (x, s4) => Some (assemble neg ids fds x, s4)
        | None => Some (assemble neg ids fds 0, s3)
        end
    | None => None
    end
  else None.

(** [parseFloat(s)]: the longest prefix of the trimmed text that is a decimal
    literal, [NaN] when there is none. *)
Definition parseFloat (s : string) : number :=
  let (neg, s1) := sign (Str.trimStart s) in
  if Str.startsWith s1 "Infinity" then Infinity neg
  else
    let (ids, s2) := scan_digits s1 in
    let (fds, s3) :=
      match eat "." s2 with
      | Some t => scan_digits t
      | None => ([], s2)
      end in
    match ids, fds with
    | [], [] => NaN
    | _, _ =>
        match scan_exponent s3 with
        | Some (x, _) => Fin (assemble neg ids fds x)
        | None => Fin (assemble neg ids fds 0)
        end
    end.

(** *** Sums and comparisons *)

(** [a + b] *)
Definition add_dec (a b : decimal) : decimal :=
  let (m1, e1) := to_pair a in
  let (m2, e2) := to_pair b in
  let e := Nat.max e1 e2 in
  of_pair (m1 * 10 ^ Z.of_nat (e - e1) + m2 * 10 ^ Z.of_nat (e - e2)) e.

(** [x + y] *)
Definition add (x y : number) : number :=
  match x, y with
  | NaN, _ | _, NaN => NaN
  | Infinity a, Infinity b => if Bool.eqb a b then Infinity a else NaN
  | Infinity a, Fin _ => Infinity a
  | Fin _, Infinity b => Infinity b
  | Fin a, Fin b => Fin (add_dec a b)
  end.

(** [x > n] for an integer [n] *)
Definition gt_int (x : number) (n : Z) : bool :=
  match x with
  | NaN => false
  | Infinity neg => negb neg
  | Fin d => let (m, e) := to_pair d in (n * 10 ^ Z.of_nat e <? m)%Z
  end.

(** [x === 0] *)
Definition is_zero (x : number) : bool :=
  match x with
  | Fin (DInt 0) => true
  | _ => false
  end.

(** [String(x)] *)
Definition to_string (x : number) : string :=
  match x with
  | NaN => "NaN"
  | Infinity neg => if neg then "-Infinity" else "Infinity"
  | Fin d => print d
  end.

(** *** The numbers that are followed exactly

    An integer below 2^53 in size, or a decimal of at most 15 significant
    digits that is at least 10^-6 in size.  Such a number is a binary64
    value on its own, it is written positionally and as its own digits, and
    adding or taking 1 from such an integer is exact. *)

Definition safe (z : Z) : bool := (Z.abs z <? 2 ^ 53)%Z.

Definition plain_dec (d : decimal) : bool :=
  match d with
  | DInt z => safe z
  | DFrac _ q r k =>
      let m := 10 * q + nz_val r in
      (m <? 10 ^ 15) && (10 ^ N.of_nat (S k) <=? m * 10 ^ 6)
  end.

Definition plain (x : number) : bool :=
  match x with
  | Fin d => plain_dec d
  | _ => false
  end.

End Num.

(** ** JSON text *)

Module JSON.

Import Str.

(** The values that JSON text denotes. *)
Unset Elimination Schemes.
Inductive json :=
| JNull
| JBool (b : bool)
| JNum (d : Num.decimal)
| JStr (s : string)
| JArr (l : list json)
| JObj (fields : list (string * json)).
Set Elimination Schemes.

Section json_induction.
Variable P : json -> Prop.
Hypothesis Hnull : P JNull.
Hypothesis Hbool : forall b, P (JBool b).
Hypothesis Hnum : forall d, P (JNum d).
Hypothesis Hstr : forall s, P (JStr s).
Hypothesis Harr : forall l, Forall P l -> P (JArr l).
Hypothesis Hobj : forall fs, Forall (fun kv => P (snd kv)) fs -> P (JObj fs).

Fixpoint json_ind (j : json) : P j :=
  match j with
  | JNull => Hnull
  | JBool b => Hbool b
  | JNum d => Hnum d
  | JStr s => Hstr s
  | JArr l =>
      Harr l ((fix go (l : list json) : Forall P l :=
                 match l with
                 | [] => List.Forall_nil P
                 | x :: r => List.Forall_cons P x r (json_ind x) (go r)
                 end) l)
  | JObj fs =>
      Hobj fs ((fix go (fs : list (string * json))
                  : Forall (fun kv => P (snd kv)) fs :=
                  match fs with
                  | [] => List.Forall_nil _
                  | kv :: r =>
                      List.Forall_cons _ kv r (json_ind (snd kv)) (go r)
                  end) fs)
  end.
End json_induction.

(** What [JSON.stringify] serialises a value of type [A] as. *)
Class ToJSON (A : Type) := to_json : A -> json.

#[global] Instance json_ToJSON : ToJSON json := fun j => j.
#[global] Instance list_ToJSON {A} `{ToJSON A} : ToJSON (list A) :=
  fun l => JArr (map to_json l).

(** *** Printing *)

Definition dquote : ascii := "034"%char.
Definition backslash : ascii := "092"%char.

Definition hex_char (n : N) : ascii :=
  if n <? 10 then chr (48 + n) else chr (87 + n).

(** One unit of a string inside its quotes. *)
Definition quote_char (c : ascii) : string :=
  let esc x := String backslash (String x EmptyString) in
  match code c with
  | 8 => esc "b"%char
  | 9 => esc "t"%char
  | 10 => esc "n"%char
  | 12 => esc "f"%char
  | 13 => esc "r"%char
  | 34 => esc dquote
  | 92 => esc backslash
  | n =>
      if n <? 32 then
        String backslash
          (String "u" (String "0" (String "0"
             (String (hex_char (n / 16))
                (String (hex_char (n mod 16)) EmptyString)))))
      else String c EmptyString
  end.

Fixpoint quote_body (s : string) : string :=
  match s with
  | EmptyString => EmptyString
  | String c r => quote_char c +:+ quote_body r
  end.

Definition quote (s : string) : string :=
  String dquote (quote_body s +:+ String dquote EmptyString).

Section containers.
Variable print : json -> string.

(** The elements of an array, after its opening bracket. *)
Fixpoint print_elems (l : list json) : string :=
  match l with
  | [] => "]"
  | x :: r =>
      print x +:+
      match r with [] => "]" | _ :: _ => "," +:+ print_elems r end
  end.

(** The members of an object, after its opening brace. *)
Fixpoint print_members (fs : list (string * json)) : string :=
  match fs with
  | [] => "}"
  | kv :: r =>
      quote (fst kv) +:+ ":" +:+ print (snd kv) +:+
      match r with [] => "}" | _ :: _ => "," +:+ print_members r end
  end.
End containers.

Fixpoint print (j : json) : string :=
  match j with
  | JNull => "null"
  | JBool true => "true"
  | JBool false => "false"
  | JNum d => Num.print d
  | JStr s => quote s
  | JArr l => "[" +:+ print_elems print l
  | JObj fs => "{" +:+ print_members print fs
  end.

(** No object has the same key twice, at any depth: the values that
    [parse] can return. *)
#[warnings="-register-all"]
Inductive distinct_keys : json -> Prop :=
| dk_null : distinct_keys JNull
| dk_bool b : distinct_keys (JBool b)
| dk_num d : distinct_keys (JNum d)
| dk_str s : distinct_keys (JStr s)
| dk_arr l : Forall distinct_keys l -> distinct_keys (JArr l)
| dk_obj fs :
    NoDup (map fst fs) ->
    Forall (fun kv => distinct_keys (snd kv)) fs ->
    distinct_keys (JObj fs).

(** [JSON.stringify(x)] *)
Definition stringify {A} `{ToJSON A} (x : A) : string := print (to_json x).

(** *** Parsing

    The text is read one unit at a time.  The stack holds the containers
    that are open, the mode says what is being read. *)

Inductive frame :=
| FArr (done : list json)
| FObj (done : list (string * json))
| FMember (done : list (string * json)) (key : string).

Inductive escape :=
| Plain
| Escaped
| Hex (ds : list N).

Inductive mode :=
| MValue
| MArrStart
| MObjStart
| MKey
| MColon (key : string)
| MStr (is_key : bool) (acc : string) (e : escape)
| MNum (acc : string)
| MLit (rest : string) (v : json)
| MAfter (v : json).

Definition state : Type := list frame * mode.

(** JSON white space: TAB, LF, CR, SP. *)
Definition is_ws (c : ascii) : bool :=
  (code c =? 9) || (code c =? 10) || (code c =? 13) || (code c =? 32).

Definition is_num_char (c : ascii) : bool :=
  ((48 <=? code c) && (code c <=? 57)) ||
  (code c =? 45) || (code c =? 43) || (code c =? 46) ||
  (code c =? 101) || (code c =? 69).

Definition hex_of (c : ascii) : option N :=
  let n := code c in
  if (48 <=? n) && (n <=? 57) then Some (n - 48)
  else if (97 <=? n) && (n <=? 102) then Some (n - 87)
  else if (65 <=? n) && (n <=? 70) then Some (n - 55)
  else None.

(** The units of the code point [n] of a [\u] escape. *)
Definition utf8 (n : N) : string :=
  if n <? 128 then String (chr n) EmptyString
  else if n <? 2048 then
    String (chr (192 + n / 64)) (String (chr (128 + n mod 64)) EmptyString)
  else
    String (chr (224 + n / 4096))
      (String (chr (128 + (n / 64) mod 64))
         (String (chr (128 + n mod 64)) EmptyString)).

(** Setting a property: an existing key keeps its place. *)
Fixpoint obj_set (fs : list (string * json)) (k : string) (v : json)
  : list (string * json) :=
  match fs with
  | [] => [(k, v)]
  | (k', v') :: r =>
      if String.eqb k' k then (k', v) :: r else (k', v') :: obj_set r k v
  end.

Definition obj_of (members : list (string * json)) : json :=
  JObj (fold_left (fun fs kv => obj_set fs (fst kv) (snd kv)) members []).

(** A value [v] is complete and [c] follows it. *)
Definition after (stk : list frame) (v : json) (c : ascii) : option state :=
  if is_ws c then Some (stk, MAfter v)
  else
    match stk with
    | FArr done :: stk' =>
        if Ascii.eqb c "," then Some (FArr (done ++ [v]) :: stk', MValue)
        else if Ascii.eqb c "]" then Some (stk', MAfter (JArr (done ++ [v])))
        else None
    | FMember done k :: stk' =>
        if Ascii.eqb c "," then Some (FObj (done ++ [(k, v)]) :: stk', MKey)
        else if Ascii.eqb c "}"
        then Some (stk', MAfter (obj_of (done ++ [(k, v)])))
        else None
    | _ => None
    end.

(** The end of a number: its text must be one number of the grammar. *)
Definition number_of (acc : string) : option json :=
  match Num.scan_json acc with
  | Some (d, EmptyString) => Some (JNum d)
  | _ => None
  end.

Definition starts_number (c : ascii) : bool :=
  Ascii.eqb c "-" || ((48 <=? code c) && (code c <=? 57)).

(** The first unit [c] of a value. *)
Definition value_start (stk : list frame) (c : ascii) : option state :=
  if is_ws c then Some (stk, MValue)
  else if Ascii.eqb c dquote then Some (stk, MStr false "" Plain)
  else if Ascii.eqb c "[" then Some (FArr [] :: stk, MArrStart)
  else if Ascii.eqb c "{" then Some (FObj [] :: stk, MObjStart)
  else if Ascii.eqb c "n" then Some (stk, MLit "ull" JNull)
  else if Ascii.eqb c "t" then Some (stk, MLit "rue" (JBool true))
  else if Ascii.eqb c "f" then Some (stk, MLit "alse" (JBool false))
  else if starts_number c then Some (stk, MNum (String c EmptyString))
  else None.

Definition key_start (stk : list frame) (c : ascii) : option state :=
  if Ascii.eqb c dquote then Some (stk, MStr true "" Plain) else None.

Definition string_end (stk : list frame) (is_key : bool) (s : string)
  : state :=
  if is_key then (stk, MColon s) else (stk, MAfter (JStr s)).

Definition step (st : state) (c : ascii) : option state :=
  let (stk, m) := st in
  match m with
  | MValue => value_start stk c
  | MArrStart =>
      if is_ws c then Some (stk, MArrStart)
      else if Ascii.eqb c "]" then
        match stk with
        | FArr _ :: stk' => Some (stk', MAfter (JArr []))
        | _ => None
        end
      else value_start stk c
  | MObjStart =>
      if is_ws c then Some (stk, MObjStart)
      else if Ascii.eqb c "}" then
        match stk with
        | FObj _ :: stk' => Some (stk', MAfter (JObj []))
        | _ => None
        end
      else key_start stk c
  | MKey => if is_ws c then Some (stk, MKey) else key_start stk c
  | MColon k =>
      if is_ws c then Some (stk, MColon k)
      else if Ascii.eqb c ":" then
        match stk with
        | FObj done :: stk' => Some (FMember done k :: stk', MValue)
        | _ => None
        end
      else None
  | MStr is_key acc Plain =>
      if Ascii.eqb c dquote then Some (string_end stk is_key acc)
      else if Ascii.eqb c backslash then Some (stk, MStr is_key acc Escaped)
      else if code c <? 32 then None
      else Some (stk, MStr is_key (acc +:+ String c EmptyString) Plain)
  | MStr is_key acc Escaped =>
      let lit x :=
        Some (stk, MStr is_key (acc +:+ String x EmptyString) Plain) in
      if Ascii.eqb c dquote then lit dquote
      else if Ascii.eqb c backslash then lit backslash
      else if Ascii.eqb c "/" then lit "/"%char
      else if Ascii.eqb c "b" then lit (chr 8)
      else if Ascii.eqb c "f" then lit (chr 12)
      else if Ascii.eqb c "n" then lit (chr 10)
      else if Ascii.eqb c "r" then lit (chr 13)
      else if Ascii.eqb c "t" then lit (chr 9)
      else if Ascii.eqb c "u" then Some (stk, MStr is_key acc (Hex []))
      else None
  | MStr is_key acc (Hex ds) =>
      match hex_of c with
      | None => None
      | Some h =>
          match ds with
          | [a; b; d] =>
              Some (stk, MStr is_key
                           (acc +:+ utf8 (((a * 16 + b) * 16 + d) * 16 + h))
                           Plain)
          | _ => Some (stk, MStr is_key acc (Hex (ds ++ [h])))
          end
      end
  | MNum acc =>
      if is_num_char c then Some (stk, MNum (acc +:+ String c EmptyString))
      else
        match number_of acc with
        | Some v => after stk v c
        | None => None
        end
  | MLit rest v =>
      match rest with
      | String x EmptyString =>
          if Ascii.eqb c x then Some (stk, MAfter v) else None
      | String x rest' =>
          if Ascii.eqb c x then Some (stk, MLit rest' v) else None
      | EmptyString => None
      end
  | MAfter v => after stk v c
  end.

Fixpoint run (st : state) (s : string) : option state :=
  match s with
  | EmptyString => Some st
  | String c r =>
      match step st c with
      | Some st' => run st' r
      | None => None
      end
  end.

(** The end of the text: one complete value and nothing open. *)
Definition finish (st : state) : option json :=
  match st with
  | ([], MAfter v) => Some v
  | ([], MNum acc) => number_of acc
  | _ => None
  end.

(** [JSON.parse(s)]; [None] is its [SyntaxError]. *)
Definition parse (s : string) : option json :=
  match run ([], MValue) s with
  | Some st => finish st
  | None => None
  end.

(** What must follow a value for its end to be seen: after a number, a
    unit that is not part of a number. *)
Definition closes (j : json) (rest : string) : Prop :=
  match j with
  | JNum _ => exists c r, rest = String c r /\ is_num_char c = false
  | _ => True
  end.

(** The text of [j] is read as [j], whatever containers are open. *)
Definition reads_back (j : json) : Prop :=
  forall stk rest, closes j rest ->
    run (stk, MValue) (print j +:+ rest) = run (stk, MAfter j) rest.

(** A value whose strings are text of 7-bit units and whose numbers are
    followed exactly: on the text of such a value [parse] returns what the
    script's [JSON.parse] returns. *)
Fixpoint plain (j : json) : bool :=
  match j with
  | JNull | JBool _ => true
  | JNum d => Num.plain_dec d
  | JStr s => Str.is_ascii s
  | JArr l => forallb plain l
  | JObj fs => forallb (fun kv => Str.is_ascii (fst kv) && plain (snd kv)) fs
  end.

End JSON.

(** ** The browser: [localStorage], the console, the drawers *)

Module Browser.

Inductive exn :=
| SecurityError
| QuotaExceededError
| SyntaxError
| TypeError.

(** [localStorage]: it may refuse every access, and it refuses a write that
    would take its content over the quota. *)
Record storage := {
  accessible : bool;
  quota : N;
  items : gmap string string
}.

(** The size of the content, in units. *)
Definition used (m : gmap string string) : N :=
  map_fold (fun k v n => N.of_nat (String.length k + String.length v) + n) 0 m.

(** The elements of the page that the cart functions touch.  An optional
    field is an element the script tests before use; its value is whether
    the class ([open], [active], [show]) is set. *)
Record page := {
  cartDrawerOpen : bool;
  profileDrawer : option bool;
  searchBarContainer : option bool;
  backdropVisible : bool;
  bodyOverflowHidden : bool;
  orderPlacedModal : option bool;
  timers : list nat
}.

Record world := {
  localStorage : storage;
  console : list string;
  document : page
}.

(** How a call ends: normally, by an exception nobody caught, or on a
    stored value that is not a sequence of line items, where the model
    does not follow the script. *)
Inductive outcome (A : Type) :=
| Done (a : A) (w : world)
| Throws (e : exn) (w : world)
| Beyond.
Arguments Done {A} a w.
Arguments Throws {A} e w.
Arguments Beyond {A}.

Definition M (A : Type) : Type := world -> outcome A.

Definition ret {A} (a : A) : M A := fun w => Done a w.

Definition bind {A B} (m : M A) (k : A -> M B) : M B :=
  fun w =>
    match m w with
    | Done a w' => k a w'
    | Throws e w' => Throws e w'
    | Beyond => Beyond
    end.

Definition throw {A} (e : exn) : M A := fun w => Throws e w.

Definition beyond {A} : M A := fun _ => Beyond.

(** [try { m } catch (e) { h e }] *)
Definition try_catch {A} (m : M A) (h : exn -> M A) : M A :=
  fun w =>
    match m w with
    | Throws e w' => h e w'
    | r => r
    end.

Notation "'let*' x := m 'in' k" := (bind m (fun x => k))
  (at level 10, x name, m at level 100, k at level 200).
Notation "m ;; k" := (bind m (fun _ => k))
  (at level 100, k at level 200, right associativity).

Definition set_storage (ls : storage) (w : world) : world :=
  {| localStorage := ls; console := console w; document := document w |}.

Definition set_document (d : page) (w : world) : world :=
  {| localStorage := localStorage w; console := console w; document := d |}.

(** [console.error(msg, ...)] *)
Definition console_error (msg : string) : M unit :=
  fun w =>
    Done tt {| localStorage := localStorage w;
               console := console w ++ [msg];
               document := document w |}.

(** [localStorage.getItem(k)] *)
Definition getItem (k : string) : M (option string) :=
  fun w =>
    if accessible (localStorage w) then Done (items (localStorage w) !! k) w
    else Throws SecurityError w.

(** [localStorage.setItem(k, v)] *)
Definition setItem (k v : string) : M unit :=
  fun w =>
    let ls := localStorage w in
    if accessible ls then
      let m := <[k := v]> (items ls) in
      if used m <=? quota ls then
        Done tt (set_storage
                   {| accessible := true; quota := quota ls; items := m |} w)
      else Throws QuotaExceededError w
    else Throws SecurityError w.

(** [localStorage.removeItem(k)] *)
Definition removeItem (k : string) : M unit :=
  fun w =>
    let ls := localStorage w in
    if accessible ls then
      Done tt (set_storage
                 {| accessible := true; quota := quota ls;
                    items := delete k (items ls) |} w)
    else Throws SecurityError w.

(** [JSON.parse(s)] *)
Definition JSON_parse (s : string) : M JSON.json :=
  match JSON.parse s with
  | Some j => ret j
  | None => throw SyntaxError
  end.

Definition update_page (f : page -> page) : M unit :=
  fun w => Done tt (set_document (f (document w)) w).

Definition read_page {A} (f : page -> A) : M A :=
  fun w => Done (f (document w)) w.

(** From storage [ls] and page [d], [m] ends normally with result [a],
    storage [ls'] and page [d']; what it writes to the console is left
    open. *)
Definition runs {A} (m : M A) (ls : storage) (d : page) (a : A)
    (ls' : storage) (d' : page) : Prop :=
  forall w, localStorage w = ls -> document w = d ->
    exists log,
      m w = Done a {| localStorage := ls'; console := console w ++ log;
                      document := d' |}.

End Browser.

(** ** The cart *)

Module Cart.

Import Browser.
Import JSON (json, JNull, JBool, JNum, JStr, JArr, JObj, ToJSON, to_json).
Import Num (number, NaN, Infinity, Fin).

Definition CART_STORAGE_KEY : string := "wristAuraCart".

(** One entry of the cart.  [image] is [None] when the property is
    [undefined], which is how it is stored: without the key. *)
Record LineItem := {
  id : string;
  name : string;
  price : number;
  image : option string;
  quantity : number
}.

Definition set_quantity (q : number) (it : LineItem) : LineItem :=
  {| id := id it; name := name it; price := price it; image := image it;
     quantity := q |}.

(** A number in JSON text: one that is not finite is written [null]. *)
Definition number_json (x : number) : json :=
  match x with
  | Fin d => JNum d
  | _ => JNull
  end.

#[global] Instance LineItem_ToJSON : ToJSON LineItem := fun it =>
  JObj ([("id", JStr (id it)); ("name", JStr (name it));
         ("price", number_json (price it))] ++
        match image it with
        | Some s => [("image", JStr s)]
        | None => []
        end ++
        [("quantity", number_json (quantity it))]).

(** A parsed object read as a line item. *)
Definition lineItem (j : json) : option LineItem :=
  match j with
  | JObj [(k1, JStr i); (k2, JStr n); (k3, JNum p); (k4, JStr im);
          (k5, JNum q)] =>
      if String.eqb k1 "id" && String.eqb k2 "name" && String.eqb k3 "price"
         && String.eqb k4 "image" && String.eqb k5 "quantity"
      then Some {| id := i; name := n; price := Fin p; image := Some im;
                   quantity := Fin q |}
      else None
  | JObj [(k1, JStr i); (k2, JStr n); (k3, JNum p); (k5, JNum q)] =>
      if String.eqb k1 "id" && String.eqb k2 "name" && String.eqb k3 "price"
         && String.eqb k5 "quantity"
      then Some {| id := i; name := n; price := Fin p; image := None;
                   quantity := Fin q |}
      else None
  | _ => None
  end.

(** The value [getCart] returned, used as an array of line items: a call
    of an array method on anything else is a [TypeError]. *)
Definition lineItems (j : json) : M (list LineItem) :=
  match j with
  | JArr l =>
      match mapM lineItem l with
      | Some cart => ret cart
      | None => beyond
      end
  | _ => throw TypeError
  end.

(** A parsed value read as a cart. *)
Definition typed (j : json) : option (list LineItem) :=
  match j with
  | JArr l => mapM lineItem l
  | _ => None
  end.

(** Retrieves the current cart from local storage. *)
Definition getCart : M json :=
  try_catch
    (let* cartJson := getItem CART_STORAGE_KEY in
     match cartJson with
     | Some s => if Str.truthy s then JSON_parse s else ret (JArr [])
     | None => ret (JArr [])
     end)
    (fun e =>
       console_error "Error retrieving cart from localStorage:";;
       ret (JArr [])).

(** Saves the cart to local storage. *)
Definition saveCart {A} `{ToJSON A} (cart : A) : M unit :=
  try_catch
    (setItem CART_STORAGE_KEY (JSON.stringify cart))
    (fun e => console_error "Error saving cart to localStorage:").

(** What [getCart] returns and what [saveCart] leaves, as functions of the
    storage alone. *)
Definition load (ls : storage) : json :=
  if accessible ls then
    match items ls !! CART_STORAGE_KEY with
    | Some s =>
        if Str.truthy s then default (JArr []) (JSON.parse s) else JArr []
    | None => JArr []
    end
  else JArr [].

Definition written (ls : storage) (text : string) : bool :=
  accessible ls &&
  (used (<[CART_STORAGE_KEY := text]> (items ls)) <=? quota ls).

Definition write (ls : storage) (text : string) : storage :=
  if written ls text then
    {| accessible := true; quota := quota ls;
       items := <[CART_STORAGE_KEY := text]> (items ls) |}
  else ls.

(** The stored cart is [cart]. *)
Definition holds (ls : storage) (cart : list LineItem) : Prop :=
  typed (load ls) = Some cart.

(** A line item that JSON text can hold: its numbers are finite. *)
Definition storable (it : LineItem) : Prop :=
  Num.isFinite (price it) = true /\ Num.isFinite (quantity it) = true.

(** The quantity is an integer and at least one. *)
Definition positive (it : LineItem) : Prop :=
  exists z : Z, quantity it = Num.of_Z z /\ (1 <= z)%Z.

(** [renderCart] and [updateCartBadge] read the cart again and rewrite the
    drawer, the badge and the subtotal.  The reading is kept, the markup is
    not. *)
Definition renderCart : M unit :=
  let* cart := getCart in
  let* _ := lineItems cart in
  ret tt.

Definition updateCartBadge : M unit :=
  let* cart := getCart in
  let* _ := lineItems cart in
  ret tt.

(** [cart.findIndex(item => item.id === id)]; [None] is [-1]. *)
Definition findIndex (i : string) (cart : list LineItem) : option nat :=
  fst <$> list_find (fun it => id it = i) cart.

(** [it] is the first item of [cart] with id [i], at index [k]. *)
Definition first_with (i : string) (cart : list LineItem) (k : nat)
    (it : LineItem) : Prop :=
  cart !! k = Some it /\ id it = i /\
  forall j it', cart !! j = Some it' -> (j < k)%nat -> id it' <> i.

(** The data attributes of the button of a product. *)
Record dataset := {
  productId : option string;
  productName : option string;
  productPrice : option string;
  productImg : option string
}.

(** A click: the elements [event.target.closest] finds for
    [.add-to-cart-btn] and for [[data-product-id]]. *)
Record event := {
  addToCartBtn : option dataset;
  productElement : option dataset
}.

(** [String(x)] of an attribute that may be [undefined]. *)
Definition text_of (o : option string) : string := default "undefined" o.

(** [!s] of an attribute that may be [undefined]. *)
Definition missing (o : option string) : bool :=
  match o with
  | Some s => negb (Str.truthy s)
  | None => true
  end.

(** [event.target.closest('.add-to-cart-btn') ||
    event.target.closest('[data-product-id]')] *)
Definition target (ev : event) : option dataset :=
  if addToCartBtn ev is Some b then Some b else productElement ev.

(** [!id || !name || isNaN(price)] *)
Definition invalid (b : dataset) : bool :=
  missing (productId b) || missing (productName b) ||
  Num.isNaN (Num.parseFloat (text_of (productPrice b))).

(** The cart after the item is added: lines 52 to 58. *)
Definition addItem (cart : list LineItem) (i n : string) (p : number)
    (img : option string) : list LineItem :=
  match findIndex i cart with
  | Some k => alter (fun it => set_quantity (Num.succ (quantity it)) it) k cart
  | None =>
      cart ++ [{| id := i; name := n; price := p; image := img;
                  quantity := Num.of_Z 1 |}]
  end.

Definition closeProfileDrawer (d : page) : page :=
  let still := cartDrawerOpen d in
  {| cartDrawerOpen := cartDrawerOpen d;
     profileDrawer := Some false;
     searchBarContainer := searchBarContainer d;
     backdropVisible := if still then backdropVisible d else false;
     bodyOverflowHidden := if still then bodyOverflowHidden d else false;
     orderPlacedModal := orderPlacedModal d;
     timers := timers d |}.

Definition closeSearchBar (d : page) : page :=
  {| cartDrawerOpen := cartDrawerOpen d;
     profileDrawer := profileDrawer d;
     searchBarContainer := Some false;
     backdropVisible := backdropVisible d;
     bodyOverflowHidden := bodyOverflowHidden d;
     orderPlacedModal := orderPlacedModal d;
     timers := timers d |}.

Definition openCartDrawer (d : page) : page :=
  let d1 :=
    {| cartDrawerOpen := true;
       profileDrawer := profileDrawer d;
       searchBarContainer := searchBarContainer d;
       backdropVisible := true;
       bodyOverflowHidden := true;
       orderPlacedModal := orderPlacedModal d;
       timers := timers d |} in
  let d2 :=
    if profileDrawer d1 is Some true then closeProfileDrawer d1 else d1 in
  if searchBarContainer d2 is Some true then closeSearchBar d2 else d2.

Definition closeCartDrawer (d : page) : page :=
  let still := if profileDrawer d is Some true then true else false in
  {| cartDrawerOpen := false;
     profileDrawer := profileDrawer d;
     searchBarContainer := searchBarContainer d;
     backdropVisible := if still then backdropVisible d else false;
     bodyOverflowHidden := if still then bodyOverflowHidden d else false;
     orderPlacedModal := orderPlacedModal d;
     timers := timers d |}.

Definition toggleCartDrawer (show : bool) : M unit :=
  if show then
    renderCart;;
    updateCartBadge;;
    update_page openCartDrawer
  else update_page closeCartDrawer.

(** Adds an item to the cart or increments its quantity. *)
Definition addToCart (ev : event) : M unit :=
  match target ev with
  | None => ret tt
  | Some button =>
      let id := productId button in
      let name := productName button in
      let price := Num.parseFloat (text_of (productPrice button)) in
      let image := productImg button in
      if invalid button then
        console_error "Missing product data for adding to cart."
      else
        let* stored := getCart in
        let* cart := lineItems stored in
        saveCart (addItem cart (text_of id) (text_of name) price image);;
        renderCart;;
        updateCartBadge;;
        if addToCartBtn ev is Some _ then toggleCartDrawer true else ret tt
  end.

(** Removes an item completely from the cart. *)
Definition removeFromCart (i : string) : M unit :=
  let* stored := getCart in
  let* cart := lineItems stored in
  saveCart (filter (fun it => id it <> i) cart);;
  renderCart;;
  updateCartBadge.

(** The cart after the quantity at index [k] is decremented: lines 85
    to 88. *)
Definition decrementAt (k : nat) (cart : list LineItem) : list LineItem :=
  let cart' :=
    alter (fun it => set_quantity (Num.pred (quantity it)) it) k cart in
  match cart' !! k with
  | Some it => if Num.lez (quantity it) then delete k cart' else cart'
  | None => cart'
  end.

(** Decrements the quantity of an item in the cart. *)
Definition decrementQuantity (i : string) : M unit :=
  let* stored := getCart in
  let* cart := lineItems stored in
  match findIndex i cart with
  | Some k =>
      saveCart (decrementAt k cart);;
      renderCart;;
      updateCartBadge
  | None => ret tt
  end.

(** [cart.length === 0] for whatever [getCart] returned. *)
Definition length_is_zero (j : json) : M bool :=
  match j with
  | JArr l => ret (bool_decide (l = []))
  | JStr s => ret (String.eqb s "")
  | JObj fs =>
      ret (if snd <$> list_find (fun kv => fst kv = "length") fs
             is Some (_, JNum (Num.DInt 0)) then true else false)
  | JNull => throw TypeError
  | _ => ret false
  end.

Definition showModal (d : page) : page :=
  {| cartDrawerOpen := cartDrawerOpen d;
     profileDrawer := profileDrawer d;
     searchBarContainer := searchBarContainer d;
     backdropVisible := backdropVisible d;
     bodyOverflowHidden := bodyOverflowHidden d;
     orderPlacedModal :=
       if orderPlacedModal d is Some _ then Some true else None;
     timers := timers d |}.

(** [setTimeout(hide the modal, ms)] *)
Definition setTimeout (ms : nat) (d : page) : page :=
  {| cartDrawerOpen := cartDrawerOpen d;
     profileDrawer := profileDrawer d;
     searchBarContainer := searchBarContainer d;
     backdropVisible := backdropVisible d;
     bodyOverflowHidden := bodyOverflowHidden d;
     orderPlacedModal := orderPlacedModal d;
     timers := timers d ++ [ms] |}.

Definition placeOrder : M unit :=
  let* cart := getCart in
  let* empty := length_is_zero cart in
  if empty then ret tt
  else
    toggleCartDrawer false;;
    update_page showModal;;
    removeItem CART_STORAGE_KEY;;
    renderCart;;
    updateCartBadge;;
    update_page (setTimeout 3000).

(** A line item of plain data: text of 7-bit units, numbers that are
    followed exactly. *)
Definition plainItem (it : LineItem) : bool :=
  Str.is_ascii (id it) && Str.is_ascii (name it) &&
  (if image it is Some s then Str.is_ascii s else true) &&
  Num.plain (price it) && Num.plain (quantity it).

Definition plainCart (cart : list LineItem) : bool := forallb plainItem cart.

(** A product button of plain data: its attributes are text of 7-bit units
    and its price is followed exactly. *)
Definition plainData (b : dataset) : bool :=
  Str.is_ascii (text_of (productId b)) &&
  Str.is_ascii (text_of (productName b)) &&
  Str.is_ascii (text_of (productPrice b)) &&
  Str.is_ascii (text_of (productImg b)) &&
  Num.plain (Num.parseFloat (text_of (productPrice b))).

End Cart.

(** ** The badge and the checkout button *)

Module Badge.
Import Cart.

(** [cart.reduce((sum, item) => sum + item.quantity, 0)] *)
Definition totalItems (cart : list LineItem) : Num.number :=
  fold_left (fun sum item => Num.add sum (quantity item)) cart (Num.of_Z 0).

(** What [updateCartBadge] writes to the badge: lines 105 to 108. *)
Record badge := {
  badgeText : string;
  badgeDisplay : string
}.

Definition badgeOf (cart : list LineItem) : badge :=
  let totalItems := totalItems cart in
  {| badgeText :=
       if Num.gt_int totalItems 99 then "99+"
       else Num.to_string totalItems;
     badgeDisplay := if Num.gt_int totalItems 0 then "flex" else "none" |}.

(** What it writes to the checkout button: lines 114 to 117. *)
Record checkout := {
  checkoutDisabled : bool;
  checkoutText : string
}.

Definition checkoutOf (cart : list LineItem) : checkout :=
  let totalItems := totalItems cart in
  {| checkoutDisabled := Num.is_zero totalItems;
     checkoutText :=
       if Num.gt_int totalItems 0 then "PROCEED TO CHECKOUT"
       else "CART IS EMPTY" |}.

(** The quantity of an item, when it is an integer. *)
Definition units (it : LineItem) : Z :=
  match quantity it with
  | Num.Fin (Num.DInt z) => z
  | _ => 0%Z
  end.

(** The sum of the integer quantities. *)
Definition count (cart : list LineItem) : Z :=
  foldr (fun it n => (units it + n)%Z) 0%Z cart.

End Badge.

(** ** The drawers and the search bar *)

Module Drawers.

Import Browser Cart.

(** Whether an optional element has its class set. *)
Definition is_set (o : option bool) : bool :=
  if o is Some true then true else false.

Definition openProfileDrawer (d : page) : page :=
  let d1 :=
    {| cartDrawerOpen := cartDrawerOpen d;
       profileDrawer := Some true;
       searchBarContainer := searchBarContainer d;
       backdropVisible := true;
       bodyOverflowHidden := true;
       orderPlacedModal := orderPlacedModal d;
       timers := timers d |} in
  let d2 := if cartDrawerOpen d1 then closeCartDrawer d1 else d1 in
  if searchBarContainer d2 is Some true then closeSearchBar d2 else d2.

(** [toggleProfileDrawer(show)]: the drawer is dereferenced without a
    guard. *)
Definition toggleProfileDrawer (show : bool) : M unit :=
  let* drawer := read_page profileDrawer in
  match drawer with
  | None => throw TypeError
  | Some _ =>
      update_page (if show then openProfileDrawer else closeProfileDrawer)
  end.

Definition activateSearchBar (d : page) : page :=
  {| cartDrawerOpen := cartDrawerOpen d;
     profileDrawer := profileDrawer d;
     searchBarContainer := Some true;
     backdropVisible := backdropVisible d;
     bodyOverflowHidden := bodyOverflowHidden d;
     orderPlacedModal := orderPlacedModal d;
     timers := timers d |}.

(** [toggleSearchBar(show)]; [input] is whether the page has the element
    [searchInput], which gets the focus 100 ms later. *)
Definition toggleSearchBar (input : bool) (show : bool) : M unit :=
  let* bar := read_page searchBarContainer in
  match bar with
  | None => throw TypeError
  | Some _ =>
      if show then
        update_page activateSearchBar;;
        (if input then update_page (setTimeout 100) else ret tt);;
        toggleProfileDrawer false;;
        toggleCartDrawer false
      else update_page closeSearchBar
  end.

Definition hideModal (d : page) : page :=
  {| cartDrawerOpen := cartDrawerOpen d;
     profileDrawer := profileDrawer d;
     searchBarContainer := searchBarContainer d;
     backdropVisible := backdropVisible d;
     bodyOverflowHidden := bodyOverflowHidden d;
     orderPlacedModal :=
       if orderPlacedModal d is Some _ then Some false else None;
     timers := timers d |}.

(** The click handler of the search button of the header. *)
Definition onSearchToggle (input : bool) : M unit :=
  let* bar := read_page searchBarContainer in
  toggleSearchBar input (negb (is_set bar)).

(** The click handler of the shared backdrop. *)
Definition onBackdropClick : M unit :=
  toggleProfileDrawer false;;
  toggleCartDrawer false.

(** The [keydown] handler of the document: lines 472 to 479. *)
Definition onKeydown (key : string) : M unit :=
  if String.eqb key "Escape" then
    (let* drawer := read_page profileDrawer in
     if is_set drawer then toggleProfileDrawer false else ret tt);;
    (let* open := read_page cartDrawerOpen in
     if open then toggleCartDrawer false else ret tt);;
    (let* bar := read_page searchBarContainer in
     if is_set bar then toggleSearchBar false false else ret tt);;
    (let* modal := read_page orderPlacedModal in
     if is_set modal then update_page hideModal else ret tt)
  else ret tt.

(** Which of the cart drawer, the profile drawer and the search bar are
    open. *)
Definition panels (d : page) : bool * bool * bool :=
  (cartDrawerOpen d, is_set (profileDrawer d), is_set (searchBarContainer d)).

(** The backdrop is shown, and the page kept from scrolling, exactly while a
    drawer is open. *)
Definition consistent (d : page) : Prop :=
  backdropVisible d = cartDrawerOpen d || is_set (profileDrawer d) /\
  bodyOverflowHidden d = backdropVisible d.

End Drawers.

(** ** Search and category filter of the home page *)

Module Filter.

(** The current state of the filters. *)
Record FilterState := {
  searchQuery : string;
  category : string
}.

Definition filterState : FilterState :=
  {| searchQuery := ""; category := "all" |}.

(** A product card: its data attributes and its [style.display]. *)
Record card := {
  productTitle : option string;
  productKeywords : option string;
  productCategory : option string;
  display : string
}.

Definition set_display (v : string) (c : card) : card :=
  {| productTitle := productTitle c; productKeywords := productKeywords c;
     productCategory := productCategory c; display := v |}.

(** A category button: its [data-category] and whether it is [active]. *)
Record button := {
  dataCategory : string;
  active : bool
}.

Inductive anchor := SearchBar | Heading.

(** The home page, or any other page that loads the script. *)
Record page := {
  state : FilterState;
  title : string;
  searchInput : option string;
  productGridContainer : option (list card);
  featuredHeading : bool;
  resultMessage : option string;
  buttons : list button;
  scrolledTo : option anchor;
  searchBarActive : bool;
  href : option string
}.

Definition HOME_TITLE : string := "Wrist Aura | Luxury Timepieces".

(** [a || ''] *)
Definition or_empty (o : option string) : string :=
  match o with
  | Some s => if Str.truthy s then s else ""
  | None => ""
  end.

(** Lines 234 to 243: whether a card is shown. *)
Definition matches (query category : string) (col : card) : bool :=
  let title := or_empty (productTitle col) in
  let keywords := or_empty (productKeywords col) in
  let cardCategory := or_empty (productCategory col) in
  let categoryMatch :=
    String.eqb category "all" || String.eqb cardCategory category in
  let searchMatch :=
    String.eqb query "" || Str.includes title query ||
    Str.includes keywords query || Str.includes cardCategory query in
  categoryMatch && searchMatch.

Definition show (query category : string) (col : card) : card :=
  set_display (if matches query category col then "block" else "none") col.

Definition foundCount (query category : string) (cards : list card) : nat :=
  length (filter (fun col => matches query category col = true) cards).

Definition strong (s : string) : string := "<strong>" +:+ s +:+ "</strong>".

Definition quoted (s : string) : string :=
  String JSON.dquote (s +:+ String JSON.dquote EmptyString).

Definition count_text (n : nat) : string := Num.print_N (N.of_nat n).

(** Lines 261 to 273. *)
Definition messageText (query category : string) (found : nat) : string :=
  let all := String.eqb category "all" in
  let pretty := Str.dashesToSpaces category in
  if Str.truthy query && all then
    if (0 <? found)%nat
    then "Showing " +:+ count_text found +:+ " results for: " +:+
         strong (quoted query)
    else "No results found for: " +:+ strong (quoted query)
  else if negb (Str.truthy query) && negb all then
    "Showing " +:+ count_text found +:+ " results in " +:+ strong pretty
  else if Str.truthy query && negb all then
    if (0 <? found)%nat
    then "Showing " +:+ count_text found +:+ " results for " +:+
         strong (quoted query) +:+ " in " +:+ strong pretty
    else "No results found for " +:+ strong (quoted query) +:+ " in " +:+
         strong pretty
  else "".

Definition paragraph (s : string) : string :=
  "<p class=" +:+ quoted "lead fw-light" +:+ " style=" +:+
  quoted "color: var(--luxury-gold);" +:+ ">" +:+ s +:+ "</p>".

(** The main filter function: reads [filterState] and shows or hides the
    product cards. *)
Definition applyFilters (p : page) : page :=
  match productGridContainer p with
  | None => p
  | Some cards =>
      let query := searchQuery (state p) in
      let category := category (state p) in
      let found := foundCount query category cards in
      let text := messageText query category found in
      let shown := featuredHeading p && Str.truthy text in
      {| state := state p;
         title := title p;
         searchInput := searchInput p;
         productGridContainer := Some (map (show query category) cards);
         featuredHeading := featuredHeading p;
         resultMessage := if shown then Some (paragraph text) else None;
         buttons := buttons p;
         scrolledTo :=
           if featuredHeading p then
             if Str.truthy text then
               if Str.truthy query then Some SearchBar else scrolledTo p
             else if String.eqb query "" && String.eqb category "all"
                  then Some Heading else scrolledTo p
           else scrolledTo p;
         searchBarActive := searchBarActive p;
         href := href p |}
  end.

Definition set_state (s : FilterState) (p : page) : page :=
  {| state := s; title := title p; searchInput := searchInput p;
     productGridContainer := productGridContainer p;
     featuredHeading := featuredHeading p; resultMessage := resultMessage p;
     buttons := buttons p; scrolledTo := scrolledTo p;
     searchBarActive := searchBarActive p; href := href p |}.

Definition hex_upper (n : N) : ascii :=
  if n <? 10 then Str.chr (48 + n) else Str.chr (55 + n).

Definition unreserved (c : ascii) : bool :=
  let n := Str.code c in
  ((48 <=? n) && (n <=? 57)) || ((65 <=? n) && (n <=? 90)) ||
  ((97 <=? n) && (n <=? 122)) ||
  (n =? 45) || (n =? 95) || (n =? 46) || (n =? 33) || (n =? 126) ||
  (n =? 42) || (n =? 39) || (n =? 40) || (n =? 41).

(** [encodeURIComponent(s)] *)
Fixpoint encodeURIComponent (s : string) : string :=
  match s with
  | EmptyString => EmptyString
  | String c r =>
      if unreserved c then String c (encodeURIComponent r)
      else String "%" (String (hex_upper (Str.code c / 16))
             (String (hex_upper (Str.code c mod 16)) (encodeURIComponent r)))
  end.

(** Handles the search input: filters on the home page, goes to the home
    page from any other. *)
Definition performSearch (p : page) : page :=
  match searchInput p with
  | None => p
  | Some value =>
      let query := Str.toLowerCase (Str.trim value) in
      if Str.includes (title p) HOME_TITLE then
        applyFilters
          (set_state {| searchQuery := query;
                        category := category (state p) |} p)
      else if Str.truthy query then
        {| state := state p; title := title p; searchInput := searchInput p;
           productGridContainer := productGridContainer p;
           featuredHeading := featuredHeading p;
           resultMessage := resultMessage p;
           buttons := buttons p; scrolledTo := scrolledTo p;
           searchBarActive := false;
           href := Some ("home.html?search=" +:+ encodeURIComponent query) |}
      else p
  end.

(** Handles the category filter buttons; [None] is a [category] that is
    not a string. *)
Definition filterByCategory (c : option string) (p : page) : page :=
  match c with
  | None => p
  | Some c =>
      let cat := Str.toLowerCase c in
      applyFilters
        {| state := {| searchQuery := searchQuery (state p);
                       category := cat |};
           title := title p; searchInput := searchInput p;
           productGridContainer := productGridContainer p;
           featuredHeading := featuredHeading p;
           resultMessage := resultMessage p;
           buttons :=
             map (fun b =>
                    {| dataCategory := dataCategory b;
                       active :=
                         String.eqb (Str.toLowerCase (dataCategory b)) cat |})
                 (buttons p);
           scrolledTo := scrolledTo p;
           searchBarActive := searchBarActive p;
           href := href p |}
  end.

(** The cards that are shown, in the order of the page. *)
Definition visible (p : page) : list card :=
  filter (fun col => display col = "block")
         (default [] (productGridContainer p)).

End Filter.

(** ** Sample data *)

Module Samples.

Import Browser Cart.

Definition closed : page :=
  {| cartDrawerOpen := false; profileDrawer := Some false;
     searchBarContainer := Some false; backdropVisible := false;
     bodyOverflowHidden := false; orderPlacedModal := Some false;
     timers := [] |}.

Definition empty_storage : storage :=
  {| accessible := true; quota := 5000000; items := ∅ |}.

Definition fresh : world :=
  {| localStorage := empty_storage; console := []; document := closed |}.

(** A world whose storage holds the text [s] under the cart key. *)
Definition storing (s : string) : world :=
  {| localStorage :=
       {| accessible := true; quota := 5000000;
          items := {[ CART_STORAGE_KEY := s ]} |};
     console := []; document := closed |}.

Definition orion : LineItem :=
  {| id := "w1"; name := "Orion Chrono";
     price := Num.Fin (Num.DFrac false 124 Num.D9 1);
     image := Some "img/orion.png"; quantity := Num.of_Z 1 |}.

Definition aura : LineItem :=
  {| id := "w2"; name := "Aura Classic"; price := Num.of_Z 250;
     image := Some "img/aura.png"; quantity := Num.of_Z 3 |}.

Definition pair : list LineItem := [orion; aura].


(** A click on the add-to-cart button of a product. *)
Definition click (i n p : string) : event :=
  {| addToCartBtn :=
       Some {| productId := Some i; productName := Some n;
               productPrice := Some p; productImg := Some "img/x.png" |};
     productElement := None |}.

(** A world whose storage holds [pair]. *)
Definition stored_pair : world := storing (JSON.stringify pair).

End Samples.

Module FilterSamples.

Import Filter.

Definition orion_card : card :=
  {| productTitle := Some "Orion Chrono"; productKeywords := None;
     productCategory := Some "chronograph"; display := "" |}.

Definition aura_card : card :=
  {| productTitle := Some "Aura Classic"; productKeywords := None;
     productCategory := Some "dress"; display := "" |}.

(** The home page with the two products, [typed] in the search input. *)
Definition home (typed : string) : page :=
  {| state := filterState;
     title := "Wrist Aura | Luxury Timepieces";
     searchInput := Some typed;
     productGridContainer := Some [orion_card; aura_card];
     featuredHeading := true;
     resultMessage := None;
     buttons := [{| dataCategory := "all"; active := true |};
                 {| dataCategory := "Chronograph"; active := false |};
                 {| dataCategory := "Dress"; active := false |}];
     scrolledTo := None;
     searchBarActive := true;
     href := None |}.



(** A collection page: no product grid, the search input holds [typed]. *)
Definition collection (typed : string) : page :=
  {| state := filterState;
     title := "Chronographs | Wrist Aura";
     searchInput := Some typed;
     productGridContainer := None;
     featuredHeading := false;
     resultMessage := None;
     buttons := [];
     scrolledTo := None;
     searchBarActive := true;
     href := None |}.

End FilterSamples.

(** * Properties *)

(** ** Numbers and their text *)

Module NumProps.
Import Num.
Import Str (all_chars).
Import JSON (starts_number).

Ltac divlia := zify; Z.to_euclidean_division_equations; lia.

Lemma app_cons x (a b : string) : String x a +:+ b = String x (a +:+ b).
Proof. reflexivity. Qed.

Lemma app_nil_l (b : string) : "" +:+ b = b.
Proof. reflexivity. Qed.

Ltac sapp := rewrite ?app_cons, ?app_nil_l.

Lemma app_assoc_s (a b c : string) : (a +:+ b) +:+ c = a +:+ (b +:+ c).
Proof. induction a as [|x a IH]; sapp; [done | by rewrite IH]. Qed.

Lemma app_nil_r_s (a : string) : a +:+ "" = a.
Proof. induction a as [|x a IH]; sapp; [done | by rewrite IH]. Qed.

Lemma code_chr n : n < 256 -> Str.code (Str.chr n) = n.
Proof. intros. unfold Str.code, Str.chr. by apply N_ascii_embedding. Qed.

Lemma chr_code c : Str.chr (Str.code c) = c.
Proof. apply ascii_N_embedding. Qed.

Lemma code_lt c : Str.code c < 256.
Proof. apply N_ascii_bounded. Qed.

Lemma digit_of_char d : d < 10 -> digit_of (digit_char d) = Some d.
Proof.
  intros Hd. unfold digit_of, digit_char. rewrite code_chr by lia.
  replace (48 <=? 48 + d) with true by (symmetry; apply N.leb_le; lia).
  replace (48 + d <=? 57) with true by (symmetry; apply N.leb_le; lia).
  simpl. f_equal. lia.
Qed.

Lemma digits_lt w : forall n, Forall (fun d => d < 10) (digits w n).
Proof.
  induction w as [|w IH]; intros n; simpl; [constructor|].
  apply Forall_app. split; [apply IH|]. repeat constructor. divlia.
Qed.

Lemma length_digits w : forall n, length (digits w n) = w.
Proof.
  induction w as [|w IH]; intros n; simpl; [done|].
  rewrite length_app, IH. simpl. lia.
Qed.

Lemma text_app a b : text (a ++ b) = text a +:+ text b.
Proof. induction a as [|x a IH]; simpl; sapp; [done | by rewrite IH]. Qed.

Lemma scan_text ds rest :
  Forall (fun d => d < 10) ds ->
  scan_digits (text ds +:+ rest) =
  (ds ++ fst (scan_digits rest), snd (scan_digits rest)).
Proof.
  induction 1 as [|d ds Hd _ IH]; simpl; sapp.
  - by destruct (scan_digits rest).
  - cbn [scan_digits]. rewrite digit_of_char by done. by rewrite IH.
Qed.

Lemma fold_value ds : forall acc,
  fold_left (fun a d => 10 * a + d) ds acc =
  acc * 10 ^ N.of_nat (length ds) + value ds.
Proof.
  unfold value. induction ds as [|d ds IH]; intros acc; simpl length.
  - simpl. lia.
  - cbn [fold_left]. rewrite IH, (IH (10 * 0 + d)).
    rewrite Nat2N.inj_succ, N.pow_succ_r'. lia.
Qed.

Lemma value_app a b :
  value (a ++ b) = value a * 10 ^ N.of_nat (length b) + value b.
Proof. unfold value at 1. rewrite fold_left_app, fold_value. done. Qed.

Lemma value_digits w : forall n, value (digits w n) = n mod 10 ^ N.of_nat w.
Proof.
  induction w as [|w IH]; intros n.
  - simpl. by rewrite N.mod_1_r.
  - cbn [digits]. rewrite value_app, IH. cbn [length].
    change (N.of_nat 1) with 1. rewrite N.pow_1_r.
    change (value [n mod 10]) with (10 * 0 + n mod 10).
    rewrite Nat2N.inj_succ, N.pow_succ_r'.
    assert (Hp : 10 ^ N.of_nat w <> 0) by (apply N.pow_nonzero; lia).
    rewrite (N.Div0.mod_mul_r n 10 (10 ^ N.of_nat w)). lia.
Qed.

Lemma width_aux_spec fuel : forall n,
  n < 2 ^ (N.of_nat fuel + 3) ->
  n < 10 ^ N.of_nat (width_aux fuel n) /\
  (width_aux fuel n = 1%nat \/
   10 ^ N.of_nat (Nat.pred (width_aux fuel n)) <= n).
Proof.
  induction fuel as [|f IH]; intros n Hn.
  - simpl in *. lia.
  - cbn [width_aux]. destruct (N.ltb_spec n 10) as [H|H].
    + simpl. lia.
    + assert (Hq : n / 10 < 2 ^ (N.of_nat f + 3)).
      { rewrite Nat2N.inj_succ, N.add_succ_l, N.pow_succ_r' in Hn.
        divlia. }
      destruct (IH _ Hq) as [H1 H2].
      rewrite Nat2N.inj_succ, N.pow_succ_r'. split; [divlia|].
      right. cbn [Nat.pred].
      destruct H2 as [H2|H2].
      * rewrite H2. simpl. lia.
      * destruct (width_aux f (n / 10)) as [|k] eqn:E.
        { simpl in *. lia. }
        cbn [Nat.pred] in H2. rewrite Nat2N.inj_succ, N.pow_succ_r'. divlia.
Qed.

Lemma width_spec n :
  n < 10 ^ N.of_nat (width n) /\
  (width n = 1%nat \/ 10 ^ N.of_nat (Nat.pred (width n)) <= n).
Proof.
  apply width_aux_spec. rewrite N2Nat.id.
  destruct n as [|p]; [simpl; lia|].
  pose proof (N.log2_spec (N.pos p) ltac:(lia)) as [_ H].
  rewrite N.pow_add_r. change (2 ^ 3) with 8.
  rewrite <- N.add_1_r, N.pow_add_r in H. lia.
Qed.

Lemma value_print_N n : value (digits (width n) n) = n.
Proof.
  rewrite value_digits. apply N.mod_small. apply width_spec.
Qed.

Lemma digits_head w : forall n,
  exists ds, digits (S w) n = ((n / 10 ^ N.of_nat w) mod 10) :: ds.
Proof.
  induction w as [|w IH]; intros n.
  - exists []. simpl. by rewrite N.div_1_r.
  - destruct (IH (n / 10)) as [ds Hds].
    exists (ds ++ [n mod 10]).
    change (digits (S (S w)) n) with (digits (S w) (n / 10) ++ [n mod 10]).
    rewrite Hds, Nat2N.inj_succ, N.pow_succ_r', N.Div0.div_div. done.
Qed.

(** The digits of [print_N] have no leading zero. *)
Lemma digits_width n :
  exists d ds, digits (width n) n = d :: ds /\ d < 10 /\ (ds = [] \/ d <> 0).
Proof.
  destruct (width_spec n) as [Hlt Hge].
  destruct (width n) as [|w] eqn:E.
  { simpl in Hlt. destruct Hge as [?|?]; [done|]. simpl in *.  lia. }
  destruct (digits_head w n) as [ds Hds].
  exists ((n / 10 ^ N.of_nat w) mod 10), ds.
  split; [done|]. split; [divlia|].
  destruct Hge as [Hw|Hw].
  - left. injection Hw as ->. simpl in Hds. by injection Hds.
  - right. cbn [Nat.pred] in Hw.
    rewrite Nat2N.inj_succ, N.pow_succ_r' in Hlt.
    assert (Hp : 10 ^ N.of_nat w <> 0) by (apply N.pow_nonzero; lia).
    assert (n / 10 ^ N.of_nat w < 10).
    { apply N.Div0.div_lt_upper_bound. lia. }
    assert (1 <= n / 10 ^ N.of_nat w).
    { apply N.div_le_lower_bound; lia. }
    rewrite N.mod_small by done. lia.
Qed.

Lemma digit_char_neq d c :
  d < 10 -> Str.code c < 48 \/ 57 < Str.code c ->
  Ascii.eqb (digit_char d) c = false.
Proof.
  intros Hd Hc. apply Ascii.eqb_neq. intros <-.
  unfold digit_char in Hc. rewrite code_chr in Hc by lia. lia.
Qed.

Lemma eat_digit c d ds rest :
  d < 10 -> Str.code c < 48 \/ 57 < Str.code c ->
  eat c (text (d :: ds) +:+ rest) = None.
Proof. intros Hd Hc. simpl. sapp. simpl. by rewrite digit_char_neq. Qed.

Lemma scan_text_end ds :
  Forall (fun d => d < 10) ds -> scan_digits (text ds) = (ds, "").
Proof.
  intros H. rewrite <- (app_nil_r_s (text ds)), (scan_text _ _ H). simpl.
  by rewrite app_nil_r.
Qed.

Lemma of_pair_frac neg q r k :
  of_pair (mantissa neg q r) (S k) = DFrac neg q r k.
Proof.
  cbn [of_pair].
  assert (Hr : 1 <= nz_val r <= 9) by (destruct r; simpl; lia).
  assert (Ha : Z.abs_N (mantissa neg q r) = 10 * q + nz_val r).
  { unfold mantissa. destruct neg; lia. }
  rewrite Ha.
  replace ((10 * q + nz_val r) mod 10) with (nz_val r) by divlia.
  replace ((10 * q + nz_val r) / 10) with q by divlia.
  replace (nz_of (nz_val r)) with (Some r) by (by destruct r).
  f_equal. unfold mantissa.
  destruct neg; [apply Z.ltb_lt | apply Z.ltb_ge]; lia.
Qed.

Lemma of_to_pair d : of_pair (fst (to_pair d)) (snd (to_pair d)) = d.
Proof. destruct d; [done | apply of_pair_frac]. Qed.

Lemma sign_text (neg : bool) ds rest :
  ds <> [] -> Forall (fun d => d < 10) ds ->
  minus ((if neg then "-" else "") +:+ text ds +:+ rest) =
  (neg, text ds +:+ rest).
Proof.
  intros Hne Hds. destruct neg; [done|]. sapp.
  destruct ds as [|d ds]; [done|]. inversion Hds; subst.
  unfold minus. rewrite eat_digit; [done..|]. by left.
Qed.

Lemma integer_part_digits d ds :
  ds = [] \/ d <> 0 -> integer_part (d :: ds) = true.
Proof.
  intros [-> | Hd]; [done|]. destruct ds; [done|]. simpl.
  by destruct d.
Qed.

Lemma scan_fraction_text fds :
  fds <> [] -> Forall (fun d => d < 10) fds ->
  scan_fraction ("." +:+ text fds) = Some (fds, "").
Proof.
  intros Hne Hlt. unfold scan_fraction.
  change (eat "." ("." +:+ text fds)) with (Some (text fds)).
  cbv beta iota. rewrite scan_text_end by done. by destruct fds.
Qed.

(** Reading back what [print] wrote. *)
Theorem scan_json_print d : scan_json (print d) = Some (d, "").
Proof.
  destruct d as [z | neg q r k]; unfold print.
  - destruct (digits_width (Z.abs_N z)) as (d & ds & Hds & Hd & Hz).
    pose proof (digits_lt (width (Z.abs_N z)) (Z.abs_N z)) as Hlt.
    pose proof (value_print_N (Z.abs_N z)) as Hv.
    unfold print_N, fixed. rewrite Hds in *.
    rewrite <- (app_nil_r_s (text (d :: ds))).
    unfold scan_json. rewrite sign_text by done.
    rewrite app_nil_r_s, scan_text_end by done.
    rewrite integer_part_digits by done.
    change (scan_fraction "") with (Some ([] : list N, "")).
    change (scan_exponent "") with (@None (Z * string)).
    unfold assemble, scaled. rewrite app_nil_r, Hv. simpl.
    do 3 f_equal. unfold signed. change (10 ^ (0 - Z.of_nat 0))%Z with 1%Z.
    destruct (Z.ltb_spec z 0); lia.
  - set (m := 10 * q + nz_val r). set (p := 10 ^ N.of_nat (S k)).
    cbv zeta.
    destruct (digits_width (m / p)) as (d & ds & Hds & Hd & Hz).
    pose proof (digits_lt (width (m / p)) (m / p)) as Hlt.
    pose proof (value_print_N (m / p)) as Hv.
    pose proof (digits_lt (S k) (m mod p)) as Hlt'.
    pose proof (length_digits (S k) (m mod p)) as Hlen.
    unfold print_N, fixed. rewrite Hds in *.
    unfold scan_json. rewrite sign_text by done.
    rewrite scan_text by done.
    change (scan_digits ("." +:+ text (digits (S k) (m mod p))))
      with ([] : list N, "." +:+ text (digits (S k) (m mod p))).
    cbn [fst snd]. rewrite app_nil_r.
    rewrite integer_part_digits by done.
    rewrite scan_fraction_text;
      [| by destruct (digits (S k) (m mod p)) | done].
    change (scan_exponent "") with (@None (Z * string)).
    unfold assemble, scaled. rewrite value_app, Hv, value_digits, Hlen.
    fold p.
    assert (Hp : p <> 0) by (apply N.pow_nonzero; lia).
    rewrite N.Div0.mod_mod.
    replace (m / p * p + m mod p) with m
      by (rewrite N.mul_comm; apply N.div_mod; done).
    replace (0 <=? 0 - Z.of_nat (S k))%Z with false
      by (symmetry; apply Z.leb_gt; lia).
    replace (Z.to_nat (- (0 - Z.of_nat (S k)))) with (S k) by lia.
    by rewrite <- of_pair_frac.
Qed.

Lemma all_chars_app P a b :
  all_chars P (a +:+ b) = all_chars P a && all_chars P b.
Proof.
  induction a as [|x a IH]; sapp; simpl; [done|].
  by rewrite IH, andb_assoc.
Qed.

Lemma digit_char_num d : d < 10 ->
  JSON.is_num_char (digit_char d) = true /\ starts_number (digit_char d) = true.
Proof.
  intros Hd. unfold JSON.is_num_char, starts_number, digit_char.
  rewrite code_chr by lia.
  replace (48 <=? 48 + d) with true by (symmetry; apply N.leb_le; lia).
  replace (48 + d <=? 57) with true by (symmetry; apply N.leb_le; lia).
  split; [done|]. by rewrite orb_true_r.
Qed.

Lemma text_num ds :
  Forall (fun d => d < 10) ds -> all_chars JSON.is_num_char (text ds) = true.
Proof.
  induction 1 as [|d ds Hd _ IH]; simpl; [done|].
  rewrite IH, andb_true_r. by apply digit_char_num.
Qed.

Lemma print_shape d :
  exists c r, print d = String c r /\ starts_number c = true /\
              all_chars JSON.is_num_char (print d) = true.
Proof.
  assert (Hs : forall neg : bool,
    all_chars JSON.is_num_char (if neg then "-" else "") = true)
    by (by intros []).
  assert (Hhead : forall (neg : bool) n rest, exists c r,
    (if neg then "-" else "") +:+ print_N n +:+ rest = String c r /\
    starts_number c = true).
  { intros neg n rest. destruct neg; [by eexists _, _|].
    destruct (digits_width n) as (x & ds & Hds & Hd & _).
    unfold print_N, fixed. rewrite Hds. sapp. simpl. sapp.
    eexists _, _. split; [done|]. by apply digit_char_num. }
  destruct d as [z | neg q r k]; unfold print.
  - destruct (Hhead (z <? 0)%Z (Z.abs_N z) "") as (c & r & E & Hc).
    rewrite app_nil_r_s in E. exists c, r. split; [done|]. split; [done|].
    rewrite all_chars_app, Hs. unfold print_N, fixed.
    apply text_num, digits_lt.
  - cbv zeta.
    edestruct (Hhead neg) as (c & r' & E & Hc).
    exists c, r'. split; [exact E|]. split; [done|].
    rewrite !all_chars_app, Hs. unfold print_N, fixed.
    rewrite !text_num by apply digits_lt. done.
Qed.

End NumProps.

(** ** JSON text *)

Module JSONProps.
Import Str JSON NumProps.

Lemma run_app a : forall st b,
  run st (a +:+ b) =
  match run st a with Some st' => run st' b | None => None end.
Proof.
  induction a as [|x a IH]; intros st b; sapp; [done|].
  simpl. destruct (step st x); [apply IH | done].
Qed.

Lemma run_num s : forall stk acc,
  all_chars is_num_char s = true ->
  run (stk, MNum acc) s = Some (stk, MNum (acc +:+ s)).
Proof.
  induction s as [|c s IH]; intros stk acc H; simpl in *.
  - by rewrite app_nil_r_s.
  - apply andb_true_iff in H as [Hc Hs]. rewrite Hc, IH by done.
    by rewrite app_assoc_s.
Qed.

Lemma value_start_number stk c :
  starts_number c = true ->
  value_start stk c = Some (stk, MNum (String c "")).
Proof.
  destruct c as [[] [] [] [] [] [] [] []]; intros H; try done.
Qed.

(** One unit of a string, written and read back. *)
Lemma run_quote_char c stk k acc rest :
  run (stk, MStr k acc Plain) (quote_char c +:+ rest) =
  run (stk, MStr k (acc +:+ String c "") Plain) rest.
Proof.
  destruct c as [[] [] [] [] [] [] [] []]; reflexivity.
Qed.

Lemma run_quote_body s : forall stk k acc rest,
  run (stk, MStr k acc Plain) (quote_body s +:+ String dquote rest) =
  run (string_end stk k (acc +:+ s)) rest.
Proof.
  induction s as [|c s IH]; intros stk k acc rest.
  - simpl. sapp. by rewrite app_nil_r_s.
  - cbn [quote_body]. rewrite app_assoc_s, run_quote_char, IH.
    by rewrite app_assoc_s.
Qed.

Lemma run_number d stk c r :
  is_num_char c = false ->
  run (stk, MValue) (Num.print d +:+ String c r) =
  run (stk, MAfter (JNum d)) (String c r).
Proof.
  intros Hc. destruct (print_shape d) as (x & t & E & Hx & Hall).
  rewrite run_app, E. cbn [run step]. rewrite value_start_number by done.
  rewrite E in Hall. cbn [all_chars] in Hall.
  apply andb_true_iff in Hall as [_ Hall].
  rewrite run_num by done. sapp. rewrite <- E.
  cbn [run step]. rewrite Hc. unfold number_of.
  by rewrite scan_json_print.
Qed.

(** The first unit of a printed value is not white space and does not
    close an array. *)
Lemma print_head j :
  exists c r, print j = String c r /\ is_ws c = false /\
              Ascii.eqb c "]" = false.
Proof.
  destruct j as [| [] | d | s | l | fs]; try (by eexists _, _).
  destruct (print_shape d) as (c & r & E & Hc & _).
  exists c, r. split; [done|].
  destruct c as [[] [] [] [] [] [] [] []]; done.
Qed.

Lemma run_first j stk rest :
  run (stk, MArrStart) (print j +:+ rest) =
  run (stk, MValue) (print j +:+ rest).
Proof.
  destruct (print_head j) as (c & r & -> & Hws & Hc). sapp.
  cbn [run step]. rewrite Hws, Hc. unfold value_start. by rewrite Hws.
Qed.

Lemma obj_set_fresh fs k v :
  k ∉ map fst fs -> obj_set fs k v = fs ++ [(k, v)].
Proof.
  induction fs as [|[k' v'] fs IH]; intros H; simpl; [done|].
  cbn [map fst] in H. rewrite not_elem_of_cons in H. destruct H as [H1 H2].
  destruct (String.eqb_spec k' k); [congruence|]. by rewrite IH.
Qed.

Lemma fold_obj_set fs : forall acc,
  NoDup (map fst (acc ++ fs)) ->
  fold_left (fun fs kv => obj_set fs (fst kv) (snd kv)) fs acc = acc ++ fs.
Proof.
  induction fs as [|[k v] fs IH]; intros acc H; simpl.
  - by rewrite app_nil_r.
  - rewrite obj_set_fresh.
    + rewrite IH; rewrite <- app_assoc; done.
    + rewrite map_app in H. apply NoDup_app in H as (_ & H & _).
      intros Hin. apply (H k Hin). simpl. left.
Qed.

Lemma obj_of_distinct fs : NoDup (map fst fs) -> obj_of fs = JObj fs.
Proof. intros H. unfold obj_of. by rewrite fold_obj_set. Qed.

Lemma run_cons st c r :
  run st (String c r) =
  match step st c with Some st' => run st' r | None => None end.
Proof. reflexivity. Qed.

Section steps.
Variable stk : list frame.

Lemma step_comma_arr done x :
  step (FArr done :: stk, MAfter x) "," =
  Some (FArr (done ++ [x]) :: stk, MValue).
Proof. reflexivity. Qed.

Lemma step_close_arr done x :
  step (FArr done :: stk, MAfter x) "]" =
  Some (stk, MAfter (JArr (done ++ [x]))).
Proof. reflexivity. Qed.

Lemma step_comma_obj done k v :
  step (FMember done k :: stk, MAfter v) "," =
  Some (FObj (done ++ [(k, v)]) :: stk, MKey).
Proof. reflexivity. Qed.

Lemma step_close_obj done k v :
  step (FMember done k :: stk, MAfter v) "}" =
  Some (stk, MAfter (obj_of (done ++ [(k, v)]))).
Proof. reflexivity. Qed.

Lemma step_key : step (stk, MKey) dquote = Some (stk, MStr true "" Plain).
Proof. reflexivity. Qed.

Lemma step_first_key :
  step (stk, MObjStart) dquote = Some (stk, MStr true "" Plain).
Proof. reflexivity. Qed.

Lemma step_colon done k :
  step (FObj done :: stk, MColon k) ":" =
  Some (FMember done k :: stk, MValue).
Proof. reflexivity. Qed.

Lemma step_quote : step (stk, MValue) dquote = Some (stk, MStr false "" Plain).
Proof. reflexivity. Qed.

Lemma step_open_arr :
  step (stk, MValue) "[" = Some (FArr [] :: stk, MArrStart).
Proof. reflexivity. Qed.

Lemma step_open_obj :
  step (stk, MValue) "{" = Some (FObj [] :: stk, MObjStart).
Proof. reflexivity. Qed.

Lemma step_empty_arr done :
  step (FArr done :: stk, MArrStart) "]" = Some (stk, MAfter (JArr [])).
Proof. reflexivity. Qed.

Lemma step_empty_obj done :
  step (FObj done :: stk, MObjStart) "}" = Some (stk, MAfter (JObj [])).
Proof. reflexivity. Qed.
End steps.

Ltac norm := repeat (rewrite ?app_assoc_s; sapp).

Lemma closes_elems j r rest :
  closes j (match r with [] => "]" | _ :: _ => "," +:+ print_elems print r end
            +:+ rest).
Proof. destruct j; try done; destruct r; by eexists _, _. Qed.

Lemma closes_members j r rest :
  closes j (match r with [] => "}" | _ :: _ => "," +:+ print_members print r end
            +:+ rest).
Proof. destruct j; try done; destruct r; by eexists _, _. Qed.

Section containers.
Variable stk : list frame.
Variable rest : string.

(** After one element: the remaining elements and the closing bracket. *)
Lemma run_elems_tail r : forall done x,
  Forall reads_back r ->
  run (FArr done :: stk, MAfter x)
      (match r with [] => "]" | _ :: _ => "," +:+ print_elems print r end
       +:+ rest) =
  run (stk, MAfter (JArr (done ++ x :: r))) rest.
Proof.
  induction r as [|y r IH]; intros done x Hr.
  - norm. by rewrite run_cons, step_close_arr.
  - inversion Hr as [|? ? Hy Hr']; subst. norm.
    rewrite run_cons, step_comma_arr. cbn [print_elems].
    rewrite app_assoc_s, Hy by apply closes_elems.
    rewrite IH by done. by rewrite <- app_assoc.
Qed.

Lemma run_member k v done r :
  reads_back v ->
  run (FObj done :: stk, MStr true "" Plain)
      (quote_body k +:+ String dquote "" +:+ ":" +:+ print v +:+
       match r with [] => "}" | _ :: _ => "," +:+ print_members print r end
       +:+ rest) =
  run (FMember done k :: stk, MAfter v)
      (match r with [] => "}" | _ :: _ => "," +:+ print_members print r end
       +:+ rest).
Proof.
  intros Hv. norm. rewrite run_quote_body. sapp. cbn [string_end].
  rewrite run_cons, step_colon.
  rewrite Hv by apply closes_members. done.
Qed.

Lemma run_members_tail r : forall done k v,
  NoDup (map fst (done ++ (k, v) :: r)) ->
  Forall (fun kv => reads_back (snd kv)) r ->
  run (FMember done k :: stk, MAfter v)
      (match r with [] => "}" | _ :: _ => "," +:+ print_members print r end
       +:+ rest) =
  run (stk, MAfter (JObj (done ++ (k, v) :: r))) rest.
Proof.
  induction r as [|[k' v'] r IH]; intros done k v Hnd Hr.
  - norm. rewrite run_cons, step_close_obj. by rewrite obj_of_distinct.
  - inversion Hr as [|? ? Hy Hr']; subst. norm.
    rewrite run_cons, step_comma_obj. cbn [print_members fst snd].
    unfold quote. norm. rewrite run_cons, step_key.
    pose proof (run_member k' v' (done ++ [(k, v)]) r Hy) as Hm.
    revert Hm. norm. intros ->.
    rewrite IH; [by rewrite <- app_assoc | by rewrite <- app_assoc | done].
Qed.
End containers.

(** A printed value is read back as itself, whatever the open containers. *)
Lemma run_print j : distinct_keys j -> reads_back j.
Proof.
  induction j as [| b | d | s | l IH | fs IH] using json_ind;
    intros Hdk stk rest Hrest.
  - reflexivity.
  - by destruct b.
  - destruct Hrest as (c & r & -> & Hc). by apply run_number.
  - cbn [print]. unfold quote. norm. rewrite run_cons, step_quote.
    by rewrite run_quote_body.
  - inversion Hdk as [| | | | ? Hl |]; subst.
    assert (Hrb : Forall reads_back l).
    { rewrite Forall_forall in *. auto. }
    cbn [print]. norm. rewrite run_cons, step_open_arr.
    destruct Hrb as [|x r Hx Hr].
    + cbn [print_elems]. norm. by rewrite run_cons, step_empty_arr.
    + cbn [print_elems]. rewrite app_assoc_s, run_first.
      rewrite Hx by apply closes_elems.
      by rewrite run_elems_tail.
  - inversion Hdk as [| | | | | ? Hnd Hfs]; subst.
    assert (Hrb : Forall (fun kv => reads_back (snd kv)) fs).
    { rewrite Forall_forall in *. auto. }
    cbn [print]. norm. rewrite run_cons, step_open_obj.
    destruct Hrb as [|[k v] r Hx Hr].
    + cbn [print_members]. norm. by rewrite run_cons, step_empty_obj.
    + cbn [print_members fst snd]. unfold quote. norm.
      rewrite run_cons, step_first_key.
      pose proof (run_member stk rest k v [] r Hx) as Hm.
      revert Hm. norm. intros ->.
      by apply (run_members_tail stk rest r [] k v).
Qed.

(** [parse] inverts [print]. *)
Theorem parse_print j : distinct_keys j -> parse (print j) = Some j.
Proof.
  intros Hdk. unfold parse.
  assert (Hgen : closes j "" ->
            run ([], MValue) (print j) = Some ([], MAfter j)).
  { intros Hc. rewrite <- (app_nil_r_s (print j)).
    by rewrite (run_print j Hdk [] ""). }
  destruct j as [| b | d | s | l | fs]; try (by rewrite Hgen).
  destruct (print_shape d) as (x & t & E & Hx & Hall).
  cbn [print]. rewrite E, run_cons.
  change (step ([], MValue) x) with (value_start [] x).
  rewrite value_start_number by done.
  rewrite E in Hall. cbn [all_chars] in Hall.
  apply andb_true_iff in Hall as [_ Hall].
  rewrite run_num by done. sapp. rewrite <- E. cbn [finish].
  unfold number_of. by rewrite scan_json_print.
Qed.

End JSONProps.

(** ** The cart *)

Module CartProps.
Import Browser Cart NumProps JSONProps.
Import JSON (json, JNull, JBool, JNum, JStr, JArr, JObj, ToJSON, to_json).
Import Num (number, NaN, Infinity, Fin).

Lemma runs_ret {A} (a : A) ls d : runs (ret a) ls d a ls d.
Proof.
  intros [ls' c d'] <- <-. exists []. unfold ret. simpl.
  by rewrite app_nil_r.
Qed.

Lemma runs_bind {A B} (m : M A) (k : A -> M B) ls d a ls1 d1 b ls2 d2 :
  runs m ls d a ls1 d1 ->
  runs (k a) ls1 d1 b ls2 d2 ->
  runs (bind m k) ls d b ls2 d2.
Proof.
  intros Hm Hk w Hls Hd. destruct (Hm w Hls Hd) as [log H].
  destruct (Hk {| localStorage := ls1; console := console w ++ log;
                  document := d1 |} eq_refl eq_refl) as [log' H'].
  exists (log ++ log'). unfold bind. rewrite H, H'. simpl.
  by rewrite app_assoc.
Qed.

Lemma runs_done {A} (m : M A) w a ls d :
  runs m (localStorage w) (document w) a ls d ->
  exists w', m w = Done a w' /\ localStorage w' = ls /\ document w' = d.
Proof.
  intros H. destruct (H w eq_refl eq_refl) as [log E].
  eexists. split; [exact E | done].
Qed.

Lemma getCart_runs ls d : runs getCart ls d (load ls) ls d.
Proof.
  intros [[acc q m] c d'] <- <-.
  unfold getCart, try_catch, bind, getItem, load. simpl.
  destruct acc; simpl.
  - destruct (m !! CART_STORAGE_KEY) as [s|]; simpl.
    + destruct (Str.truthy s); simpl.
      * unfold JSON_parse. destruct (JSON.parse s); simpl.
        -- exists []. by rewrite app_nil_r.
        -- by eexists [_].
      * exists []. by rewrite app_nil_r.
    + exists []. by rewrite app_nil_r.
  - by eexists [_].
Qed.

Lemma saveCart_runs {A} `{ToJSON A} (cart : A) ls d :
  runs (saveCart cart) ls d tt (write ls (JSON.stringify cart)) d.
Proof.
  intros [[acc q m] c d'] <- <-.
  unfold saveCart, try_catch, setItem, write, written. simpl.
  destruct acc; simpl.
  - destruct (_ <=? _); simpl.
    + exists []. by rewrite app_nil_r.
    + by eexists [_].
  - by eexists [_].
Qed.

Lemma lineItems_runs j cart ls d :
  typed j = Some cart -> runs (lineItems j) ls d cart ls d.
Proof.
  intros H. destruct j; try done. simpl in H. unfold lineItems. rewrite H.
  apply runs_ret.
Qed.

Lemma update_page_runs f ls d : runs (update_page f) ls d tt ls (f d).
Proof.
  intros [ls' c d'] <- <-. exists []. unfold update_page. simpl.
  by rewrite app_nil_r.
Qed.

Lemma renderCart_runs ls d cart :
  holds ls cart -> runs renderCart ls d tt ls d.
Proof.
  intros H. unfold renderCart.
  eapply runs_bind; [apply getCart_runs|].
  eapply runs_bind; [by apply lineItems_runs|].
  apply runs_ret.
Qed.

Lemma updateCartBadge_runs ls d cart :
  holds ls cart -> runs updateCartBadge ls d tt ls d.
Proof. apply renderCart_runs. Qed.

(** *** Line items and JSON text *)

Lemma lineItem_to_json it :
  storable it -> lineItem (to_json it) = Some it.
Proof.
  destruct it as [i n p img q]. intros [Hp Hq]. simpl in *.
  destruct p; try done. destruct q; try done. by destruct img.
Qed.

Lemma lineItem_inv j it :
  lineItem j = Some it -> to_json it = j /\ storable it.
Proof.
  unfold lineItem. intros H.
  repeat match type of H with
         | match ?x with _ => _ end = _ => destruct x eqn:?; try done
         | (if ?b then _ else _) = _ => destruct b eqn:?; try done
         end;
  simplify_eq;
  repeat match goal with
         | H : _ && _ = true |- _ => apply andb_true_iff in H as [? ?]
         | H : String.eqb _ _ = true |- _ => apply String.eqb_eq in H; subst
         end; done.
Qed.

Lemma typed_to_json cart :
  Forall storable cart -> typed (to_json cart) = Some cart.
Proof.
  intros H. unfold to_json, JSON.list_ToJSON, typed.
  apply mapM_Some. induction H as [|it cart Hit _ IH]; constructor; [|done].
  by apply lineItem_to_json.
Qed.

Lemma typed_inv j cart :
  typed j = Some cart -> to_json cart = j /\ Forall storable cart.
Proof.
  destruct j as [| | | | l |]; try done. simpl. intros H.
  apply mapM_Some in H. unfold to_json, JSON.list_ToJSON.
  induction H as [|x it l cart Hx _ [IH1 IH2]]; [done|].
  apply lineItem_inv in Hx as [<- Hs]. split; [|by constructor].
  cbn [map]. by simplify_eq.
Qed.

Lemma holds_storable ls cart : holds ls cart -> Forall storable cart.
Proof. intros H. by apply typed_inv in H as [_ ?]. Qed.

Lemma distinct_keys_number x : JSON.distinct_keys (number_json x).
Proof. destruct x; constructor. Qed.

Lemma distinct_keys_item (it : LineItem) : JSON.distinct_keys (to_json it).
Proof.
  destruct it as [i n p img q]. unfold to_json, LineItem_ToJSON. simpl.
  pose proof (distinct_keys_number p). pose proof (distinct_keys_number q).
  destruct img; constructor; simpl;
    solve [ by apply (bool_decide_unpack _) | by repeat constructor ].
Qed.

Lemma distinct_keys_cart (cart : list LineItem) :
  JSON.distinct_keys (to_json cart).
Proof.
  constructor. apply Forall_forall. intros j Hj.
  apply list_elem_of_In, in_map_iff in Hj as (it & <- & _).
  apply distinct_keys_item.
Qed.

(** What was saved is what is read back. *)
Lemma parse_stringify (cart : list LineItem) :
  JSON.parse (JSON.stringify cart) = Some (to_json cart).
Proof. apply parse_print, distinct_keys_cart. Qed.

Lemma load_write ls (cart : list LineItem) :
  written ls (JSON.stringify cart) = true ->
  load (write ls (JSON.stringify cart)) = to_json cart.
Proof.
  intros Hw. unfold write. rewrite Hw. unfold load. cbn [accessible items].
  rewrite lookup_insert_eq, parse_stringify. done.
Qed.

Lemma holds_write ls cart cart' :
  holds ls cart -> Forall storable cart' ->
  holds (write ls (JSON.stringify cart'))
        (if written ls (JSON.stringify cart') then cart' else cart).
Proof.
  intros H Hs. destruct (written _ _) eqn:Hw.
  - unfold holds. rewrite load_write by done. by apply typed_to_json.
  - unfold write. by rewrite Hw.
Qed.



(** *** Numbers *)

Lemma succ_of_Z z : Num.succ (Num.of_Z z) = Num.of_Z (z + 1).
Proof. unfold Num.succ, Num.of_Z, Num.add_int. simpl. repeat f_equal; lia. Qed.

Lemma pred_of_Z z : Num.pred (Num.of_Z z) = Num.of_Z (z - 1).
Proof. unfold Num.pred, Num.of_Z, Num.add_int. simpl. repeat f_equal; lia. Qed.

Lemma isFinite_succ x : Num.isFinite (Num.succ x) = Num.isFinite x.
Proof. by destruct x. Qed.


(** *** The cart as a list *)

Lemma findIndex_Some i cart k :
  findIndex i cart = Some k <-> exists it, first_with i cart k it.
Proof.
  unfold findIndex, first_with. split.
  - intros H. apply fmap_Some in H as ([k' it] & H & ->).
    apply list_find_Some in H. by exists it.
  - intros (it & H). apply fmap_Some. exists (k, it). split; [|done].
    by apply list_find_Some.
Qed.

Lemma findIndex_None i cart :
  findIndex i cart = None <-> i ∉ map id cart.
Proof.
  unfold findIndex. rewrite fmap_None, list_find_None, Forall_forall.
  split.
  - intros H Hin. apply list_elem_of_In, in_map_iff in Hin as (it & <- & Hit).
    by apply (H it); [apply list_elem_of_In|].
  - intros H it Hit <-. apply H, list_elem_of_In, in_map.
    by apply list_elem_of_In.
Qed.



Lemma alter_at {A} (f : A -> A) (l : list A) k x :
  l !! k = Some x -> alter f k l = <[k := f x]> l.
Proof.
  revert k. induction l as [|y l IH]; intros [|k] H; simplify_eq/=; [done|].
  f_equal. by apply IH.
Qed.

Lemma alter_none {A} (f : A -> A) (l : list A) k :
  l !! k = None -> alter f k l = l.
Proof.
  revert k. induction l as [|y l IH]; intros [|k] H; simplify_eq/=; try done.
  f_equal. by apply IH.
Qed.

Lemma addItem_present cart i n p img k it :
  first_with i cart k it ->
  addItem cart i n p img =
  <[k := set_quantity (Num.succ (quantity it)) it]> cart.
Proof.
  intros H. unfold addItem.
  replace (findIndex i cart) with (Some k)
    by (symmetry; apply findIndex_Some; eauto).
  apply (alter_at (fun it => set_quantity (Num.succ (quantity it)) it)
           cart k it), H.
Qed.

Lemma addItem_absent cart i n p img :
  i ∉ map id cart ->
  addItem cart i n p img =
  cart ++ [{| id := i; name := n; price := p; image := img;
              quantity := Num.of_Z 1 |}].
Proof.
  intros H. unfold addItem. by apply findIndex_None in H as ->.
Qed.


(** *** The operations on the stored cart *)



Lemma storable_set_quantity q it :
  storable it -> Num.isFinite q = true -> storable (set_quantity q it).
Proof. by intros [? ?] ?. Qed.



Lemma storable_addItem cart i n p img :
  Forall storable cart -> Num.isFinite p = true ->
  Forall storable (addItem cart i n p img).
Proof.
  intros H Hp. unfold addItem. destruct (findIndex i cart) as [k|].
  - apply Forall_alter; [done|]. intros it _ Hit.
    apply storable_set_quantity; [done|].
    rewrite isFinite_succ. apply Hit.
  - apply Forall_app. split; [done|]. by repeat constructor.
Qed.

(** [addToCart] on valid data with a finite price. *)
Lemma addToCart_runs ev b ls d cart :
  target ev = Some b -> invalid b = false ->
  Num.isFinite (Num.parseFloat (text_of (productPrice b))) = true ->
  holds ls cart ->
  runs (addToCart ev) ls d tt
       (write ls (JSON.stringify
          (addItem cart (text_of (productId b)) (text_of (productName b))
                   (Num.parseFloat (text_of (productPrice b)))
                   (productImg b))))
       (if addToCartBtn ev is Some _ then openCartDrawer d else d).
Proof.
  intros Ht Hv Hp H. unfold addToCart. rewrite Ht, Hv.
  set (cart' := addItem _ _ _ _ _).
  assert (Hh := holds_write ls cart cart' H
                  (storable_addItem _ _ _ _ _ (holds_storable _ _ H) Hp)).
  eapply runs_bind; [apply getCart_runs|].
  eapply runs_bind; [by apply lineItems_runs|].
  eapply runs_bind; [apply saveCart_runs|].
  eapply runs_bind; [by eapply renderCart_runs|].
  eapply runs_bind; [by eapply updateCartBadge_runs|].
  destruct (addToCartBtn ev); [|apply runs_ret].
  unfold toggleCartDrawer.
  eapply runs_bind; [by eapply renderCart_runs|].
  eapply runs_bind; [by eapply updateCartBadge_runs|].
  apply update_page_runs.
Qed.

Lemma getCart_load w :
  exists w', getCart w = Done (load (localStorage w)) w' /\
             localStorage w' = localStorage w /\ document w' = document w.
Proof. apply runs_done, getCart_runs. Qed.

Lemma getCart_value w j w' :
  getCart w = Done j w' -> load (localStorage w) = j.
Proof.
  intros H. destruct (getCart_load w) as (w1 & H1 & _). congruence.
Qed.

(** *** Plain data *)

Lemma plain_isFinite x : Num.plain x = true -> Num.isFinite x = true.
Proof. by destruct x. Qed.

Lemma plainData_isFinite b :
  plainData b = true ->
  Num.isFinite (Num.parseFloat (text_of (productPrice b))) = true.
Proof.
  unfold plainData. rewrite !andb_true_iff. intros [_ H].
  by apply plain_isFinite.
Qed.











Lemma filter_other i (cart : list LineItem) :
  i ∉ map id cart -> filter (fun it => id it <> i) cart = cart.
Proof.
  intros H. induction cart as [|it cart IH]; [done|].
  cbn [map] in H. apply not_elem_of_cons in H as [H1 H2].
  rewrite filter_cons_True by done. by rewrite IH.
Qed.



(** *** Decrementing *)

Lemma lez_of_Z z : Num.lez (Num.of_Z z) = (z <=? 0)%Z.
Proof. reflexivity. Qed.

Lemma decrementAt_at cart k it z :
  cart !! k = Some it -> quantity it = Num.of_Z z -> (1 <= z)%Z ->
  decrementAt k cart =
  if (z =? 1)%Z then delete k cart
  else <[k := set_quantity (Num.of_Z (z - 1)) it]> cart.
Proof.
  intros Hk Hq Hz. unfold decrementAt.
  rewrite (alter_at (fun it => set_quantity (Num.pred (quantity it)) it)
             cart k it Hk).
  rewrite list_lookup_insert_eq by (by eapply lookup_lt_Some).
  rewrite Hq, pred_of_Z. cbn [quantity set_quantity]. rewrite lez_of_Z.
  destruct (Z.eqb_spec z 1) as [-> | Hne].
  - cbn. clear Hq. revert k Hk.
    induction cart as [|x cart IH]; intros [|k] Hk; simplify_eq/=; [done|].
    f_equal. by apply IH.
  - by replace (z - 1 <=? 0)%Z with false by (symmetry; apply Z.leb_gt; lia).
Qed.

Lemma positive_decrementAt cart k :
  Forall positive cart -> Forall positive (decrementAt k cart).
Proof.
  intros H. destruct (cart !! k) as [it|] eqn:Hk.
  - assert (Hit : positive it).
    { apply (proj1 (Forall_forall _ _) H). by eapply list_elem_of_lookup_2. }
    destruct Hit as (z & Hq & Hz).
    rewrite (decrementAt_at cart k it z Hk Hq Hz).
    destruct (Z.eqb_spec z 1); [by apply Forall_delete|].
    apply Forall_insert; [done|]. exists (z - 1)%Z. split; [done | lia].
  - unfold decrementAt. rewrite alter_none by done. by rewrite Hk.
Qed.



(** *** Validation *)





(** *** Placing an order *)

Lemma removeItem_runs ls d :
  accessible ls = true ->
  runs (removeItem CART_STORAGE_KEY) ls d tt
       {| accessible := true; quota := quota ls;
          items := delete CART_STORAGE_KEY (items ls) |} d.
Proof.
  intros Ha [ls' c d'] <- <-. exists []. unfold removeItem. simpl in *.
  rewrite Ha. simpl. by rewrite app_nil_r.
Qed.

Lemma load_accessible ls x l : load ls = JArr (x :: l) -> accessible ls = true.
Proof. unfold load. by destruct (accessible ls). Qed.

Lemma load_removed ls :
  load {| accessible := true; quota := quota ls;
          items := delete CART_STORAGE_KEY (items ls) |} = JArr [].
Proof. unfold load. simpl. by rewrite lookup_delete_eq. Qed.

(** C6.  [placeOrder] on an empty stored cart changes neither the storage
    nor the page: the modal is not shown and no timer is set.  On a stored
    cart with at least one entry it ends normally with the cart key removed
    from the storage, so that [getCart] then returns the empty array, the
    drawer closed, the modal shown if the page has one, and the timer that
    hides it set. *)
Theorem placeOrder_requires_nonempty_cart w :
  (forall w0, getCart w = Done (JArr []) w0 ->
   exists w', placeOrder w = Done tt w' /\
              localStorage w' = localStorage w /\
              document w' = document w) /\
  (forall x l w0, getCart w = Done (JArr (x :: l)) w0 ->
   exists w' w'',
     placeOrder w = Done tt w' /\
     items (localStorage w') !! CART_STORAGE_KEY = None /\
     getCart w' = Done (JArr []) w'' /\
     document w' =
       setTimeout 3000 (showModal (closeCartDrawer (document w)))).
Proof.
  split.
  - intros w0 E. apply getCart_value in E.
    apply runs_done. unfold placeOrder.
    eapply runs_bind; [apply getCart_runs|]. rewrite E.
    eapply runs_bind; [apply runs_ret|]. apply runs_ret.
  - intros x l w0 E. apply getCart_value in E.
    pose proof (load_accessible _ _ _ E) as Ha.
    set (ls' := {| accessible := true; quota := quota (localStorage w);
                   items := delete CART_STORAGE_KEY
                              (items (localStorage w)) |}).
    assert (Hh : holds ls' []).
    { unfold holds, ls'. by rewrite load_removed. }
    assert (Hr : runs placeOrder (localStorage w) (document w) tt ls'
                   (setTimeout 3000
                      (showModal (closeCartDrawer (document w))))).
    { unfold placeOrder.
      eapply runs_bind; [apply getCart_runs|]. rewrite E.
      eapply runs_bind; [apply runs_ret|]. cbn [bool_decide decide_rel].
      replace (bool_decide (x :: l = [])) with false
        by (symmetry; by apply bool_decide_eq_false).
      eapply runs_bind; [apply update_page_runs|].
      eapply runs_bind; [apply update_page_runs|].
      eapply runs_bind; [by apply removeItem_runs|].
      eapply runs_bind; [by eapply renderCart_runs|].
      eapply runs_bind; [by eapply updateCartBadge_runs|].
      apply update_page_runs. }
    destruct (runs_done _ w _ _ _ Hr) as (w' & E' & Hls & Hd).
    destruct (getCart_load w') as (w'' & E'' & _).
    exists w', w''. split; [done|]. split.
    + rewrite Hls. unfold ls'. simpl. apply lookup_delete_eq.
    + split; [|done]. rewrite E'', Hls. unfold ls'. by rewrite load_removed.
Qed.

Lemma placeOrder_requires_nonempty_cart_witness :
  (exists w', placeOrder Samples.fresh = Done tt w' /\
              localStorage w' = localStorage Samples.fresh /\
              document w' = document Samples.fresh) /\
  (exists w' w'',
     placeOrder (Samples.storing (JSON.stringify [Samples.orion])) =
       Done tt w' /\
     items (localStorage w') !! CART_STORAGE_KEY = None /\
     getCart w' = Done (JArr []) w'' /\
     document w' =
       setTimeout 3000 (showModal (closeCartDrawer Samples.closed))).
Proof.
  split.
  - apply (proj1 (placeOrder_requires_nonempty_cart Samples.fresh)
             Samples.fresh).
    reflexivity.
  - apply (proj2 (placeOrder_requires_nonempty_cart
                    (Samples.storing (JSON.stringify [Samples.orion])))
             (to_json Samples.orion) []
             (Samples.storing (JSON.stringify [Samples.orion]))).
    vm_compute. reflexivity.
Defined.

(** *** Loading *)




(** *** Saving and loading *)




End CartProps.

(** ** The filter *)

Module FilterProps.
Import Filter NumProps.

Lemma startsWith_spec s q :
  Str.startsWith s q = true <-> exists b, s = q +:+ b.
Proof.
  revert s. induction q as [|c q IH]; intros s.
  - split; [intros _; by exists s | intros _; by destruct s].
  - destruct s as [|x s]; simpl.
    + split; [done | by intros [b Hb]].
    + rewrite andb_true_iff, IH, Ascii.eqb_eq. split.
      * intros [-> [b ->]]. by exists b.
      * intros [b Hb]. rewrite app_cons in Hb. injection Hb as -> ->. eauto.
Qed.

(** [s.includes(q)]: [q] occurs in [s]. *)
Lemma includes_spec s q :
  Str.includes s q = true <-> exists a b, s = a +:+ q +:+ b.
Proof.
  induction s as [|x s IH].
  - cbn [Str.includes]. rewrite orb_false_r, startsWith_spec. split.
    + intros [b Hb]. by exists "", b.
    + intros (a & b & H). destruct a; [by exists b | done].
  - cbn [Str.includes]. rewrite orb_true_iff, startsWith_spec, IH. split.
    + intros [[b Hb] | (a & b & ->)]; [by exists "", b|].
      by exists (String x a), b.
    + intros (a & b & H). destruct a as [|y a].
      * left. by exists b.
      * right. rewrite app_cons in H. injection H as -> ->. eauto.
Qed.

(** A card is shown exactly when the category is [all] or is the card's
    category as written, and the query is empty or occurs as written in the
    card's title, keywords or category. *)
Lemma matches_iff query category col :
  matches query category col = true <->
  (category = "all" \/ or_empty (productCategory col) = category) /\
  (query = "" \/
   (exists a b, or_empty (productTitle col) = a +:+ query +:+ b) \/
   (exists a b, or_empty (productKeywords col) = a +:+ query +:+ b) \/
   (exists a b, or_empty (productCategory col) = a +:+ query +:+ b)).
Proof.
  unfold matches. rewrite andb_true_iff, !orb_true_iff, !String.eqb_eq.
  rewrite !includes_spec. tauto.
Qed.

Lemma shown_cards query category cards :
  filter (fun col => display col = "block")
         (map (show query category) cards) =
  map (set_display "block")
      (filter (fun col => matches query category col = true) cards).
Proof.
  induction cards as [|col cards IH]; [done|].
  assert (Hiff : display (show query category col) = "block" <->
                 matches query category col = true).
  { unfold show. by destruct (matches _ _ col). }
  cbn [map]. rewrite !filter_cons.
  repeat case_decide; try tauto; cbn [map]; rewrite IH; try done.
  unfold show. by replace (matches _ _ col) with true.
Qed.

(** The cards shown after [applyFilters] are the matching cards, in the
    order of the page. *)
Lemma visible_applyFilters p cards :
  productGridContainer p = Some cards ->
  visible (applyFilters p) =
  map (set_display "block")
      (filter (fun col => matches (searchQuery (state p))
                                  (category (state p)) col = true) cards).
Proof.
  intros H. unfold visible, applyFilters. rewrite H. apply shown_cards.
Qed.

Lemma foundCount_visible p cards :
  productGridContainer p = Some cards ->
  length (visible (applyFilters p)) =
  foundCount (searchQuery (state p)) (category (state p)) cards.
Proof.
  intros H. rewrite (visible_applyFilters p cards H). unfold foundCount.
  apply length_map.
Qed.

(** C2 at the products of the specification: with the category
    [chronograph] chosen and [orion] searched, no card is shown, although
    the lower-cased title of the first card contains the query; the
    category button of the same page is compared after lower-casing. *)
Theorem search_misses_capitalised_title :
  let p := performSearch
             (filterByCategory (Some "chronograph")
                (FilterSamples.home "orion")) in
  state p = {| searchQuery := "orion"; category := "chronograph" |} /\
  visible p = [] /\
  Str.includes (Str.toLowerCase "Orion Chrono") "orion" = true /\
  Str.includes "Orion Chrono" "orion" = false /\
  buttons p = [{| dataCategory := "all"; active := false |};
               {| dataCategory := "Chronograph"; active := true |};
               {| dataCategory := "Dress"; active := false |}].
Proof. vm_compute. repeat split. Qed.

(** C9, amended.  The message depends on which of the query and
    the category are set.  With only a query, and with both, it has a
    [Showing] form for a positive count and a [No results found] form for
    a count of zero; with only a category it has the [Showing] form for a
    positive count; with neither there is no message. *)
Theorem messageText_templates query category found :
  let q := strong (quoted query) in
  let c := strong (Str.dashesToSpaces category) in
  let n := count_text found in
  (query <> "" -> category = "all" ->
   messageText query category found =
     if (0 <? found)%nat then "Showing " +:+ n +:+ " results for: " +:+ q
     else "No results found for: " +:+ q) /\
  (query = "" -> category <> "all" -> (0 < found)%nat ->
   messageText query category found =
     "Showing " +:+ n +:+ " results in " +:+ c) /\
  (query <> "" -> category <> "all" ->
   messageText query category found =
     if (0 <? found)%nat
     then "Showing " +:+ n +:+ " results for " +:+ q +:+ " in " +:+ c
     else "No results found for " +:+ q +:+ " in " +:+ c) /\
  (query = "" -> category = "all" -> messageText query category found = "").
Proof.
  cbv zeta. unfold messageText, Str.truthy.
  destruct (String.eqb_spec query ""), (String.eqb_spec category "all");
    cbn [negb andb]; repeat split; intros; done.
Qed.

Lemma messageText_templates_witness :
  messageText "orion" "all" 0 =
    "No results found for: " +:+ strong (quoted "orion") /\
  messageText "" "dress-watch" 2 =
    "Showing " +:+ count_text 2 +:+ " results in " +:+
    strong (Str.dashesToSpaces "dress-watch") /\
  messageText "orion" "dress" 0 =
    "No results found for " +:+ strong (quoted "orion") +:+ " in " +:+
    strong (Str.dashesToSpaces "dress") /\
  messageText "" "all" 0 = "".
Proof.
  pose proof (messageText_templates "orion" "all" 0) as (H1 & _).
  pose proof (messageText_templates "" "dress-watch" 2) as (_ & H2 & _).
  pose proof (messageText_templates "orion" "dress" 0) as (_ & _ & H3 & _).
  pose proof (messageText_templates "" "all" 0) as (_ & _ & _ & H4).
  split; [apply H1; done|]. split; [apply H2; [done | done | lia]|].
  split; [apply H3; done|]. apply H4; done.
Defined.

(** C9 as the specification states it fails: with the query and the
    category at their defaults a count of zero gives no message at all, so
    no [No results found] form. *)
Lemma messageText_defaults_no_variant :
  messageText (searchQuery filterState) (category filterState) 0 = "" /\
  Str.startsWith
    (messageText (searchQuery filterState) (category filterState) 0)
    "No results found" = false /\
  resultMessage (applyFilters (FilterSamples.home "")) = None.
Proof. vm_compute. repeat split. Qed.

End FilterProps.

(** ** The badge *)

Module BadgeProps.
Import Browser Cart Badge CartProps.
Import Num (number, NaN, Infinity, Fin).

Lemma add_of_Z a b : Num.add (Num.of_Z a) (Num.of_Z b) = Num.of_Z (a + b).
Proof.
  unfold Num.of_Z, Num.add, Num.add_dec. simpl. do 2 f_equal. lia.
Qed.

Lemma positive_units it :
  positive it -> quantity it = Num.of_Z (units it) /\ (1 <= units it)%Z.
Proof. intros (z & H & Hz). unfold units. by rewrite H. Qed.

Lemma totalItems_fold cart : forall acc,
  Forall positive cart ->
  fold_left (fun sum item => Num.add sum (quantity item)) cart
            (Num.of_Z acc) =
  Num.of_Z (acc + count cart).
Proof.
  induction cart as [|it cart IH]; intros acc H.
  - simpl. f_equal. lia.
  - apply Forall_cons in H as [Hit H]. cbn [fold_left count foldr].
    destruct (positive_units it Hit) as [-> _].
    rewrite add_of_Z, IH by done. f_equal. fold (count cart). lia.
Qed.

Lemma totalItems_count cart :
  Forall positive cart -> totalItems cart = Num.of_Z (count cart).
Proof. intros H. unfold totalItems. by rewrite totalItems_fold. Qed.

Lemma count_length cart :
  Forall positive cart -> (Z.of_nat (length cart) <= count cart)%Z.
Proof.
  induction 1 as [|it cart Hit _ IH]; [done|].
  cbn [length count foldr]. fold (count cart).
  destruct (positive_units it Hit) as [_ ?]. lia.
Qed.

Lemma count_app a b : count (a ++ b) = (count a + count b)%Z.
Proof.
  induction a as [|it a IH]; [done|]. cbn [app count foldr].
  fold (count (a ++ b)) (count a). lia.
Qed.

Lemma count_insert cart k it it' :
  cart !! k = Some it ->
  count (<[k := it']> cart) = (count cart - units it + units it')%Z.
Proof.
  revert k. induction cart as [|x cart IH]; intros [|k] H; simplify_eq/=.
  - fold (count cart). lia.
  - fold (count cart) (count (<[k := it']> cart)). rewrite (IH k H). lia.
Qed.

Lemma count_delete cart k it :
  cart !! k = Some it -> count (delete k cart) = (count cart - units it)%Z.
Proof.
  revert k. induction cart as [|x cart IH]; intros [|k] H; simplify_eq/=.
  - fold (count cart). lia.
  - fold (count cart) (count (delete k cart)). rewrite (IH k H). lia.
Qed.

(** X1.  For a cart of positive quantities whose sum is below 2^53 the
    badge shows that sum, [99+] beyond 99, and is hidden exactly when the
    cart is empty; the checkout button is disabled exactly when the cart is
    empty. *)
Theorem badge_counts_the_items cart :
  Forall positive cart -> (count cart < 2 ^ 53)%Z ->
  totalItems cart = Num.of_Z (count cart) /\
  (Z.of_nat (length cart) <= count cart)%Z /\
  badgeText (badgeOf cart) =
    (if (99 <? count cart)%Z then "99+"
     else Num.print_N (Z.to_N (count cart))) /\
  (badgeDisplay (badgeOf cart) = "none" <-> cart = []) /\
  (checkoutDisabled (checkoutOf cart) = true <-> cart = []) /\
  checkoutText (checkoutOf cart) =
    (if bool_decide (cart = []) then "CART IS EMPTY"
     else "PROCEED TO CHECKOUT").
Proof.
  intros H Hsafe. pose proof (count_length cart H) as Hlen.
  unfold badgeOf, checkoutOf. rewrite (totalItems_count cart H).
  cbn [badgeText badgeDisplay checkoutDisabled checkoutText].
  unfold Num.gt_int, Num.is_zero, Num.to_string, Num.of_Z.
  cbn [Num.to_pair]. change (10 ^ Z.of_nat 0)%Z with 1%Z.
  rewrite !Z.mul_1_r. split; [done|]. split; [done|].
  destruct cart as [|it cart].
  - by vm_compute.
  - cbn [length] in Hlen.
    assert (Hpos : (0 < count (it :: cart))%Z) by lia.
    replace (0 <? count (it :: cart))%Z with true
      by (symmetry; by apply Z.ltb_lt).
    split.
    + destruct (99 <? _)%Z; [done|]. unfold Num.print.
      replace (count (it :: cart) <? 0)%Z with false
        by (symmetry; apply Z.ltb_ge; lia).
      rewrite NumProps.app_nil_l. f_equal. lia.
    + split; [done|]. split; [|done].
      destruct (count (it :: cart)); [lia | done | done].
Qed.

Lemma badge_counts_the_items_witness :
  totalItems Samples.pair = Num.of_Z 4 /\
  badgeText (badgeOf Samples.pair) = "4".
Proof.
  destruct (badge_counts_the_items Samples.pair) as (H1 & _ & H2 & _).
  - repeat constructor; [exists 1%Z | exists 3%Z]; split; (reflexivity || lia).
  - reflexivity.
  - split; [exact H1 | exact H2].
Defined.

End BadgeProps.

(** ** How the cart operations compose *)

Module OperationProps.
Import Browser Cart Badge CartProps BadgeProps.
Import JSON (json, JNull, JBool, JNum, JStr, JArr, JObj, ToJSON, to_json).
Import Num (number, NaN, Infinity, Fin).

Lemma first_with_insert i cart k it it' :
  first_with i cart k it -> id it' = i ->
  first_with i (<[k := it']> cart) k it'.
Proof.
  intros (Hk & Hid & Hfirst) Hid'. split; [|split; [done|]].
  - apply list_lookup_insert_eq. by eapply lookup_lt_Some.
  - intros j x Hj Hlt. rewrite list_lookup_insert_ne in Hj by lia.
    by eapply Hfirst.
Qed.

Lemma first_with_appended i cart it :
  i ∉ map id cart -> id it = i ->
  first_with i (cart ++ [it]) (length cart) it.
Proof.
  intros Hout Hid. split; [|split; [done|]].
  - by rewrite lookup_app_r, Nat.sub_diag.
  - intros j x Hj Hlt Hx. rewrite lookup_app_l in Hj by done.
    apply Hout. rewrite <- Hx. apply list_elem_of_In, in_map.
    apply list_elem_of_In. by eapply list_elem_of_lookup_2.
Qed.

Lemma delete_appended {A} (l : list A) x : delete (length l) (l ++ [x]) = l.
Proof. induction l as [|y l IH]; [done|]. simpl. by rewrite IH. Qed.

Lemma set_quantity_same it z :
  quantity it = Num.of_Z z ->
  set_quantity (Num.of_Z z) (set_quantity (Num.of_Z (z + 1)) it) = it.
Proof. destruct it. simpl. by intros ->. Qed.

(** X2.  On a cart of positive quantities below 2^53, decrementing an id
    right after adding it gives the cart back. *)
Theorem decrement_undoes_add cart i n p img :
  Forall positive cart ->
  Forall (fun it => Num.plain (quantity it) = true) cart ->
  exists k,
    findIndex i (addItem cart i n p img) = Some k /\
    decrementAt k (addItem cart i n p img) = cart.
Proof.
  intros Hpos Hsafe. destruct (findIndex i cart) as [k|] eqn:E.
  - apply findIndex_Some in E as [it Hk].
    assert (Hit : positive it).
    { apply (proj1 (Forall_forall _ _) Hpos).
      eapply list_elem_of_lookup_2, (proj1 Hk). }
    destruct Hit as (z & Hq & Hz).
    rewrite (addItem_present _ _ n p img _ _ Hk), Hq, succ_of_Z.
    set (it' := set_quantity (Num.of_Z (z + 1)) it).
    assert (Hk' : first_with i (<[k := it']> cart) k it')
      by exact (first_with_insert i cart k it it' Hk (proj1 (proj2 Hk))).
    exists k. split; [apply findIndex_Some; eauto|].
    rewrite (decrementAt_at _ k it' (z + 1) (proj1 Hk') eq_refl) by lia.
    replace (z + 1 =? 1)%Z with false by (symmetry; apply Z.eqb_neq; lia).
    rewrite list_insert_insert_eq. replace (z + 1 - 1)%Z with z by lia.
    unfold it'. rewrite set_quantity_same by done.
    apply list_insert_id, Hk.
  - apply findIndex_None in E.
    rewrite (addItem_absent _ _ n p img E).
    set (new := {| id := i; name := n; price := p; image := img;
                   quantity := Num.of_Z 1 |}).
    assert (Hk : first_with i (cart ++ [new]) (length cart) new)
      by by apply first_with_appended.
    exists (length cart). split; [apply findIndex_Some; eauto|].
    rewrite (decrementAt_at _ _ new 1 (proj1 Hk) eq_refl) by lia.
    apply delete_appended.
Qed.

Lemma decrement_undoes_add_witness :
  exists k,
    findIndex "w2" (addItem Samples.pair "w2" "Aura" (Num.of_Z 1) None) =
      Some k /\
    decrementAt k (addItem Samples.pair "w2" "Aura" (Num.of_Z 1) None) =
      Samples.pair.
Proof.
  apply (decrement_undoes_add Samples.pair "w2" "Aura" (Num.of_Z 1) None).
  - repeat constructor; [exists 1%Z | exists 3%Z]; split;
      (reflexivity || lia).
  - by repeat constructor.
Defined.

Lemma filter_insert_out (P : LineItem -> Prop) `{forall it, Decision (P it)}
    (cart : list LineItem) k it it' :
  cart !! k = Some it -> ~ P it -> ~ P it' ->
  filter P (<[k := it']> cart) = filter P cart.
Proof.
  revert k. induction cart as [|x cart IH]; intros [|k] Hk Hit Hit';
    simplify_eq/=.
  - by rewrite !filter_cons_False.
  - rewrite !filter_cons. by rewrite (IH k).
Qed.

(** X3.  Removing an id after adding it leaves what removing it from the
    cart leaves: the cart itself when the id was new. *)
Theorem remove_undoes_add cart i n p img :
  filter (fun it => id it <> i) (addItem cart i n p img) =
    filter (fun it => id it <> i) cart /\
  (i ∉ map id cart ->
   filter (fun it => id it <> i) (addItem cart i n p img) = cart).
Proof.
  assert (H : filter (fun it => id it <> i) (addItem cart i n p img) =
              filter (fun it => id it <> i) cart).
  { destruct (findIndex i cart) as [k|] eqn:E.
    - apply findIndex_Some in E as [it Hk].
      rewrite (addItem_present _ _ n p img _ _ Hk).
      destruct Hk as (Hk & Hid & _).
      apply (filter_insert_out _ _ _ it); [done | |]; simpl; tauto.
    - apply findIndex_None in E. rewrite (addItem_absent _ _ n p img E).
      rewrite filter_app, filter_cons_False by (simpl; tauto).
      by rewrite filter_nil, app_nil_r. }
  split; [done|]. intros Hout. rewrite H. by apply filter_other.
Qed.

Lemma map_id_alter (f : LineItem -> LineItem) k (cart : list LineItem) :
  (forall it, id (f it) = id it) ->
  map id (alter f k cart) = map id cart.
Proof.
  intros Hf. revert k. induction cart as [|x cart IH]; intros [|k]; simpl;
    try done.
  - by rewrite Hf.
  - f_equal. apply IH.
Qed.

Lemma positive_addItem cart i n p img :
  Forall positive cart -> Forall positive (addItem cart i n p img).
Proof.
  intros H. unfold addItem. destruct (findIndex i cart) as [k|].
  - apply Forall_alter; [done|]. intros it _ (z & Hq & Hz).
    exists (z + 1)%Z. cbn [quantity set_quantity]. rewrite Hq, succ_of_Z.
    split; [done | lia].
  - apply Forall_app. split; [done|]. repeat constructor.
    exists 1%Z. split; [done | lia].
Qed.

(** X4.  A cart in which no two items have the same id and every quantity
    is a positive integer is again such a cart after an item is added,
    after an id is removed and after an item is decremented. *)
Theorem operations_keep_ids_unique cart i n p img k :
  NoDup (map id cart) -> Forall positive cart ->
  (NoDup (map id (addItem cart i n p img)) /\
   Forall positive (addItem cart i n p img)) /\
  (NoDup (map id (filter (fun it => id it <> i) cart)) /\
   Forall positive (filter (fun it => id it <> i) cart)) /\
  (NoDup (map id (decrementAt k cart)) /\
   Forall positive (decrementAt k cart)).
Proof.
  intros Hnd Hpos. split; [|split].
  - split; [|by apply positive_addItem].
    unfold addItem. destruct (findIndex i cart) as [j|] eqn:E.
    + by rewrite map_id_alter.
    + apply findIndex_None in E. rewrite map_app. apply NoDup_app.
      split; [done|]. split; [|apply NoDup_singleton].
      intros x Hx Hin. apply list_elem_of_singleton in Hin. by subst.
  - split.
    + eapply sublist_NoDup; [exact Hnd|].
      apply (fmap_sublist id), sublist_filter.
    + apply Forall_forall. intros it Hit.
      apply list_elem_of_filter in Hit as [_ Hit].
      by apply (proj1 (Forall_forall _ _) Hpos).
  - split; [|by apply positive_decrementAt].
    unfold decrementAt.
    set (cart' := alter _ k cart).
    assert (Hnd' : NoDup (map id cart'))
      by (unfold cart'; by rewrite map_id_alter).
    destruct (cart' !! k) as [it|]; [|done].
    destruct (Num.lez _); [|done].
    eapply sublist_NoDup; [exact Hnd'|].
    apply (fmap_sublist id), sublist_delete.
Qed.

Lemma operations_keep_ids_unique_witness :
  NoDup (map id (addItem Samples.pair "w1" "Orion" (Num.of_Z 1) None)) /\
  NoDup (map id (filter (fun it => id it <> "w1") Samples.pair)) /\
  NoDup (map id (decrementAt 0 Samples.pair)).
Proof.
  destruct (operations_keep_ids_unique Samples.pair "w1" "Orion"
              (Num.of_Z 1) None 0)
    as ((H1 & _) & (H2 & _) & (H3 & _)).
  - by apply (bool_decide_unpack _).
  - repeat constructor; [exists 1%Z | exists 3%Z]; split; (reflexivity || lia).
  - split; [exact H1|]. split; [exact H2 | exact H3].
Defined.

(** X5.  On a cart of positive quantities whose sum is below 2^53, adding
    an item adds one to the total of the badge and decrementing an item of
    the cart takes one off. *)
Theorem total_follows_the_operations cart i n p img :
  Forall positive cart -> (count cart < 2 ^ 53)%Z ->
  totalItems (addItem cart i n p img) =
    Num.succ (totalItems cart) /\
  (forall k, findIndex i cart = Some k ->
     totalItems (decrementAt k cart) = Num.pred (totalItems cart)).
Proof.
  intros Hpos Hsafe.
  rewrite (totalItems_count cart Hpos), succ_of_Z, pred_of_Z.
  split.
  - destruct (findIndex i cart) as [k|] eqn:E.
    + apply findIndex_Some in E as [it Hk].
      assert (Hit : positive it).
      { apply (proj1 (Forall_forall _ _) Hpos).
        eapply list_elem_of_lookup_2, (proj1 Hk). }
      destruct Hit as (z & Hq & Hz).
      rewrite (addItem_present _ _ n p img _ _ Hk), Hq, succ_of_Z.
      rewrite totalItems_count.
      * rewrite (count_insert _ _ it) by apply Hk. f_equal.
        unfold units. rewrite Hq. simpl. lia.
      * apply Forall_insert; [done|]. exists (z + 1)%Z. split; [done | lia].
    + apply findIndex_None in E. rewrite (addItem_absent _ _ n p img E).
      rewrite totalItems_count.
      * rewrite count_app; f_equal; simpl; lia.
      * apply Forall_app. split; [done|]. repeat constructor.
        exists 1%Z. split; [done | lia].
  - intros k E. apply findIndex_Some in E as [it Hk].
    assert (Hit : positive it).
    { apply (proj1 (Forall_forall _ _) Hpos).
      eapply list_elem_of_lookup_2, (proj1 Hk). }
    destruct Hit as (z & Hq & Hz).
    rewrite totalItems_count by by apply positive_decrementAt.
    rewrite (decrementAt_at cart k it z (proj1 Hk) Hq Hz). f_equal.
    destruct (Z.eqb_spec z 1) as [-> | Hne].
    + rewrite (count_delete _ _ it) by apply Hk.
      unfold units. rewrite Hq. simpl. lia.
    + rewrite (count_insert _ _ it) by apply Hk.
      unfold units at 1 2. rewrite Hq. simpl. lia.
Qed.

Lemma total_follows_the_operations_witness :
  totalItems (addItem Samples.pair "w2" "Aura" (Num.of_Z 1) None) =
    Num.of_Z 5 /\
  totalItems (decrementAt 1 Samples.pair) = Num.of_Z 3.
Proof.
  destruct (total_follows_the_operations Samples.pair "w2" "Aura"
              (Num.of_Z 1) None) as (H1 & H2).
  - repeat constructor; [exists 1%Z | exists 3%Z]; split; (reflexivity || lia).
  - reflexivity.
  - split; [exact H1 | exact (H2 1%nat eq_refl)].
Defined.

End OperationProps.

(** ** The cart operations on the storage *)

Module StoreProps.
Import Browser Cart CartProps.
Import JSON (json, JNull, JBool, JNum, JStr, JArr, JObj, ToJSON, to_json).
Import Num (number, NaN, Infinity, Fin).

(** X6.  [saveCart] never throws.  When the storage takes the text, the
    cart key holds it and every other key is as before; when the storage
    cannot be written, or the text would take it over its quota, nothing is
    stored and one diagnostic is logged. *)
Theorem saveCart_never_throws (cart : list LineItem) w :
  let text := JSON.stringify cart in
  exists log,
    saveCart cart w =
      Done tt {| localStorage := write (localStorage w) text;
                 console := console w ++ log; document := document w |} /\
    (written (localStorage w) text = true ->
     log = [] /\
     items (write (localStorage w) text) !! CART_STORAGE_KEY = Some text /\
     forall k, k <> CART_STORAGE_KEY ->
       items (write (localStorage w) text) !! k =
       items (localStorage w) !! k) /\
    (written (localStorage w) text = false ->
     log = ["Error saving cart to localStorage:"] /\
     write (localStorage w) text = localStorage w).
Proof.
  cbv zeta. destruct w as [[acc q m] c d].
  unfold saveCart, try_catch, setItem, write, written. simpl.
  destruct acc; simpl.
  - destruct (_ <=? _) eqn:E; simpl.
    + exists []. rewrite app_nil_r. split; [done|]. split; [|done].
      intros _. split; [done|]. split; [apply lookup_insert_eq|].
      intros k Hk. by apply lookup_insert_ne.
    + eexists [_]. split; [done|]. split; [done|]. done.
  - eexists [_]. split; [done|]. split; [done|]. done.
Qed.

Lemma getCart_quiet w :
  (forall l, load (localStorage w) <> JArr l) ->
  getCart w = Done (load (localStorage w)) w.
Proof.
  destruct w as [[acc q m] c d].
  unfold getCart, try_catch, bind, getItem, load. simpl.
  destruct acc; simpl; [|by intros H; destruct (H [])].
  destruct (m !! CART_STORAGE_KEY) as [s|]; simpl;
    [|by intros H; destruct (H [])].
  destruct (Str.truthy s); simpl; [|by intros H; destruct (H [])].
  unfold JSON_parse. destruct (JSON.parse s); simpl; [done|].
  by intros H; destruct (H []).
Qed.

Lemma lineItems_throws j w :
  (forall l, j <> JArr l) -> lineItems j w = Throws TypeError w.
Proof. intros H. destruct j; try done. by destruct (H l). Qed.

(** X7.  When the stored text is JSON but not an array, adding, removing
    and decrementing end in a [TypeError] that nothing catches, and the
    storage, the console and the page are as before. *)
Theorem cart_operations_need_an_array w ev b i :
  (forall l, load (localStorage w) <> JArr l) ->
  target ev = Some b -> invalid b = false ->
  addToCart ev w = Throws TypeError w /\
  removeFromCart i w = Throws TypeError w /\
  decrementQuantity i w = Throws TypeError w.
Proof.
  intros H Ht Hv. unfold addToCart, removeFromCart, decrementQuantity.
  rewrite Ht, Hv. unfold bind. rewrite (getCart_quiet w H).
  by rewrite (lineItems_throws _ w H).
Qed.

Lemma cart_operations_need_an_array_witness :
  addToCart (Samples.click "w1" "Orion" "5") (Samples.storing "42") =
    Throws TypeError (Samples.storing "42") /\
  removeFromCart "w1" (Samples.storing "42") =
    Throws TypeError (Samples.storing "42") /\
  decrementQuantity "w1" (Samples.storing "42") =
    Throws TypeError (Samples.storing "42").
Proof.
  apply (cart_operations_need_an_array (Samples.storing "42")
           (Samples.click "w1" "Orion" "5")
           {| productId := Some "w1"; productName := Some "Orion";
              productPrice := Some "5"; productImg := Some "img/x.png" |}
           "w1").
  - intros l. vm_compute. discriminate.
  - reflexivity.
  - reflexivity.
Defined.

(** X8.  On a stored cart of plain items with positive quantities, a click
    on a product with valid, plain data ends normally. The stored cart is
    then the cart with the item added, or the cart as it was when the
    storage did not take the text; the cart drawer opens when the click was
    on an add-to-cart button, and the page is as before otherwise. A click
    outside any product does nothing. *)
Theorem addToCart_stores_and_opens ev w cart :
  holds (localStorage w) cart -> plainCart cart = true ->
  Forall positive cart ->
  (target ev = None -> addToCart ev w = Done tt w) /\
  (forall b,
     target ev = Some b -> invalid b = false -> plainData b = true ->
     let cart' :=
       addItem cart (text_of (productId b)) (text_of (productName b))
               (Num.parseFloat (text_of (productPrice b))) (productImg b) in
     exists w1,
       addToCart ev w = Done tt w1 /\
       localStorage w1 = write (localStorage w) (JSON.stringify cart') /\
       holds (localStorage w1)
             (if written (localStorage w) (JSON.stringify cart')
              then cart' else cart) /\
       document w1 =
         (if addToCartBtn ev is Some _ then openCartDrawer (document w)
          else document w)).
Proof.
  intros H Hplain Hpos. split.
  - intros Ht. unfold addToCart. by rewrite Ht.
  - intros b Ht Hv Hdata cart'.
    pose proof (plainData_isFinite b Hdata) as Hp.
    destruct (runs_done _ w _ _ _
                (addToCart_runs ev b _ (document w) cart Ht Hv Hp H))
      as (w1 & E & Hls & Hd).
    exists w1. fold cart' in Hls. split; [done|]. split; [done|].
    split; [|done]. rewrite Hls. apply holds_write; [done|].
    apply storable_addItem; [by eapply holds_storable | done].
Qed.

Lemma addToCart_stores_and_opens_witness :
  exists w1,
    addToCart (Samples.click "w2" "Aura Classic" "250") Samples.stored_pair =
      Done tt w1 /\
    holds (localStorage w1)
          (addItem Samples.pair "w2" "Aura Classic" (Num.of_Z 250)
                   (Some "img/x.png")) /\
    cartDrawerOpen (document w1) = true.
Proof.
  destruct (proj2 (addToCart_stores_and_opens
                     (Samples.click "w2" "Aura Classic" "250")
                     Samples.stored_pair Samples.pair
                     ltac:(vm_compute; reflexivity) eq_refl
                     ltac:(repeat constructor;
                           [exists 1%Z | exists 3%Z]; split;
                           (reflexivity || lia)))
              {| productId := Some "w2"; productName := Some "Aura Classic";
                 productPrice := Some "250";
                 productImg := Some "img/x.png" |}
              eq_refl eq_refl eq_refl)
    as (w1 & E & _ & Hh & Hd).
  exists w1. split; [exact E|]. split; [exact Hh|]. by rewrite Hd.
Defined.

Lemma placeOrder_runs ls d x l :
  load ls = JArr (x :: l) ->
  runs placeOrder ls d tt
       {| accessible := true; quota := quota ls;
          items := delete CART_STORAGE_KEY (items ls) |}
       (setTimeout 3000 (showModal (closeCartDrawer d))).
Proof.
  intros E. pose proof (load_accessible _ _ _ E) as Ha.
  assert (Hh : holds {| accessible := true; quota := quota ls;
                        items := delete CART_STORAGE_KEY (items ls) |} []).
  { unfold holds. by rewrite load_removed. }
  unfold placeOrder.
  eapply runs_bind; [apply getCart_runs|]. rewrite E.
  eapply runs_bind; [apply runs_ret|].
  replace (bool_decide (x :: l = [])) with false
    by (symmetry; by apply bool_decide_eq_false).
  eapply runs_bind; [apply update_page_runs|].
  eapply runs_bind; [apply update_page_runs|].
  eapply runs_bind; [by apply removeItem_runs|].
  eapply runs_bind; [by eapply renderCart_runs|].
  eapply runs_bind; [by eapply updateCartBadge_runs|].
  apply update_page_runs.
Qed.

Lemma placeOrder_empty_runs ls d :
  load ls = JArr [] -> runs placeOrder ls d tt ls d.
Proof.
  intros E. unfold placeOrder.
  eapply runs_bind; [apply getCart_runs|]. rewrite E.
  eapply runs_bind; [apply runs_ret|]. apply runs_ret.
Qed.

(** X9.  Placing an order a second time does nothing: after an order on a
    stored cart with at least one entry, [placeOrder] leaves the storage and
    the page as they are, with no second timer. *)
Theorem placeOrder_twice w x l :
  load (localStorage w) = JArr (x :: l) ->
  exists w1 w2,
    placeOrder w = Done tt w1 /\
    placeOrder w1 = Done tt w2 /\
    localStorage w2 = localStorage w1 /\
    document w2 = document w1 /\
    timers (document w2) = timers (document w) ++ [3000%nat].
Proof.
  intros E.
  destruct (runs_done _ w _ _ _ (placeOrder_runs _ (document w) _ _ E))
    as (w1 & E1 & Hls1 & Hd1).
  assert (E' : load (localStorage w1) = JArr []).
  { rewrite Hls1. apply load_removed. }
  destruct (runs_done _ w1 _ _ _
              (placeOrder_empty_runs _ (document w1) E'))
    as (w2 & E2 & Hls2 & Hd2).
  exists w1, w2. repeat split; try done. by rewrite Hd2, Hd1.
Qed.

Lemma placeOrder_twice_witness :
  exists w1 w2,
    placeOrder Samples.stored_pair = Done tt w1 /\
    placeOrder w1 = Done tt w2 /\
    localStorage w2 = localStorage w1 /\
    document w2 = document w1 /\
    timers (document w2) = timers Samples.closed ++ [3000%nat].
Proof.
  apply (placeOrder_twice Samples.stored_pair (to_json Samples.orion)
           [to_json Samples.aura]).
  vm_compute. reflexivity.
Defined.

End StoreProps.

(** ** The drawers *)

Module DrawerProps.
Import Browser Cart Drawers CartProps.

Lemma read_page_runs {A} (f : page -> A) ls d :
  runs (read_page f) ls d (f d) ls d.
Proof.
  intros [ls' c d'] <- <-. exists []. unfold read_page. simpl.
  by rewrite app_nil_r.
Qed.

Lemma toggleProfileDrawer_runs show ls d p :
  profileDrawer d = Some p ->
  runs (toggleProfileDrawer show) ls d tt ls
       (if show then openProfileDrawer d else closeProfileDrawer d).
Proof.
  intros H. unfold toggleProfileDrawer.
  eapply runs_bind; [apply read_page_runs|]. rewrite H.
  destruct show; apply update_page_runs.
Qed.

Lemma toggleCartDrawer_runs show ls d cart :
  holds ls cart ->
  runs (toggleCartDrawer show) ls d tt ls
       (if show then openCartDrawer d else closeCartDrawer d).
Proof.
  intros H. destruct show; simpl; [|apply update_page_runs].
  eapply runs_bind; [by eapply renderCart_runs|].
  eapply runs_bind; [by eapply updateCartBadge_runs|].
  apply update_page_runs.
Qed.

Lemma closeCartDrawer_runs ls d :
  runs (toggleCartDrawer false) ls d tt ls (closeCartDrawer d).
Proof. apply update_page_runs. Qed.

Lemma toggleSearchBar_runs input show ls d p s :
  profileDrawer d = Some p -> searchBarContainer d = Some s ->
  runs (toggleSearchBar input show) ls d tt ls
       (if show then
          closeCartDrawer
            (closeProfileDrawer
               ((if input then setTimeout 100 else fun d => d)
                  (activateSearchBar d)))
        else closeSearchBar d).
Proof.
  intros Hp Hs. unfold toggleSearchBar.
  eapply runs_bind; [apply read_page_runs|]. rewrite Hs.
  destruct show; [|apply update_page_runs].
  eapply runs_bind; [apply update_page_runs|].
  eapply runs_bind.
  { instantiate (1 := (if input then setTimeout 100 else fun d => d)
                        (activateSearchBar d)).
    instantiate (1 := ls). instantiate (1 := tt).
    destruct input; [apply update_page_runs | apply runs_ret]. }
  eapply runs_bind.
  { eapply (toggleProfileDrawer_runs false). by destruct input. }
  apply closeCartDrawer_runs.
Qed.

(** X10.  Opening one of the cart drawer, the profile drawer and the search
    bar closes the other two. *)
Theorem opening_closes_the_others w p s cart input :
  profileDrawer (document w) = Some p ->
  searchBarContainer (document w) = Some s ->
  holds (localStorage w) cart ->
  (exists w1, toggleCartDrawer true w = Done tt w1 /\
     localStorage w1 = localStorage w /\
     panels (document w1) = (true, false, false) /\
     backdropVisible (document w1) = true /\
     bodyOverflowHidden (document w1) = true) /\
  (exists w1, toggleProfileDrawer true w = Done tt w1 /\
     localStorage w1 = localStorage w /\
     panels (document w1) = (false, true, false) /\
     backdropVisible (document w1) = true /\
     bodyOverflowHidden (document w1) = true) /\
  (exists w1, toggleSearchBar input true w = Done tt w1 /\
     localStorage w1 = localStorage w /\
     panels (document w1) = (false, false, true) /\
     backdropVisible (document w1) = false /\
     bodyOverflowHidden (document w1) = false /\
     timers (document w1) =
       timers (document w) ++ (if input then [100%nat] else [])).
Proof.
  intros Hp Hs H. split; [|split].
  - destruct (runs_done _ w _ _ _
                (toggleCartDrawer_runs true _ (document w) _ H))
      as (w1 & E & Hls & Hd).
    exists w1. rewrite Hd. split; [done|]. split; [done|].
    destruct (document w) as [c pd sb b o m t]. simpl in *. subst.
    by destruct p, s.
  - destruct (runs_done _ w _ _ _
                (toggleProfileDrawer_runs true (localStorage w) (document w)
                   _ Hp))
      as (w1 & E & Hls & Hd).
    exists w1. rewrite Hd. split; [done|]. split; [done|].
    destruct (document w) as [c pd sb b o m t]. simpl in *. subst.
    by destruct c, s.
  - destruct (runs_done _ w _ _ _
                (toggleSearchBar_runs input true (localStorage w)
                   (document w) _ _ Hp Hs))
      as (w1 & E & Hls & Hd).
    exists w1. rewrite Hd. split; [done|]. split; [done|].
    destruct (document w) as [c pd sb b o m t]. simpl in *. subst.
    destruct input; simpl; by rewrite ?app_nil_r.
Qed.

Lemma opening_closes_the_others_witness :
  exists w1,
    toggleProfileDrawer true Samples.stored_pair = Done tt w1 /\
    panels (document w1) = (false, true, false).
Proof.
  destruct (opening_closes_the_others Samples.stored_pair false false
              Samples.pair true eq_refl eq_refl
              ltac:(vm_compute; reflexivity))
    as (_ & (w1 & E & _ & H & _) & _).
  exists w1. split; [exact E | exact H].
Defined.

(** X11.  Closing a panel leaves the other two as they were and keeps the
    backdrop consistent. *)
Theorem closing_keeps_the_backdrop_consistent w p s input :
  profileDrawer (document w) = Some p ->
  searchBarContainer (document w) = Some s ->
  consistent (document w) ->
  (exists w1, toggleCartDrawer false w = Done tt w1 /\
     localStorage w1 = localStorage w /\
     panels (document w1) = (false, is_set (Some p), is_set (Some s)) /\
     consistent (document w1)) /\
  (exists w1, toggleProfileDrawer false w = Done tt w1 /\
     localStorage w1 = localStorage w /\
     panels (document w1) =
       (cartDrawerOpen (document w), false, is_set (Some s)) /\
     consistent (document w1)) /\
  (exists w1, toggleSearchBar input false w = Done tt w1 /\
     localStorage w1 = localStorage w /\
     panels (document w1) =
       (cartDrawerOpen (document w), is_set (Some p), false) /\
     consistent (document w1)).
Proof.
  intros Hp Hs [Hb Ho]. split; [|split].
  - destruct (runs_done _ w _ _ _
                (closeCartDrawer_runs (localStorage w) (document w)))
      as (w1 & E & Hls & Hd).
    exists w1. rewrite Hd. split; [done|]. split; [done|].
    destruct (document w) as [c pd sb b o m t]. simpl in *. subst.
    by destruct c, p as [|], s.
  - destruct (runs_done _ w _ _ _
                (toggleProfileDrawer_runs false (localStorage w) (document w)
                   _ Hp))
      as (w1 & E & Hls & Hd).
    exists w1. rewrite Hd. split; [done|]. split; [done|].
    destruct (document w) as [c pd sb b o m t]. simpl in *. subst.
    by destruct c, p as [|], s.
  - destruct (runs_done _ w _ _ _
                (toggleSearchBar_runs input false (localStorage w)
                   (document w) _ _ Hp Hs))
      as (w1 & E & Hls & Hd).
    exists w1. rewrite Hd. split; [done|]. split; [done|].
    destruct (document w) as [c pd sb b o m t]. simpl in *. subst.
    by destruct c, p as [|], s.
Qed.

Lemma closing_keeps_the_backdrop_consistent_witness :
  exists w1,
    toggleCartDrawer false Samples.fresh = Done tt w1 /\
    consistent (document w1).
Proof.
  destruct (closing_keeps_the_backdrop_consistent Samples.fresh false false
              true eq_refl eq_refl ltac:(split; reflexivity))
    as ((w1 & E & _ & _ & H) & _).
  exists w1. split; [exact E | exact H].
Defined.

(** X12.  The search button of the header flips the search bar: closing it
    leaves the drawers as they are, opening it closes both. *)
Theorem search_button_flips_the_bar w p s input :
  profileDrawer (document w) = Some p ->
  searchBarContainer (document w) = Some s ->
  exists w1,
    onSearchToggle input w = Done tt w1 /\
    localStorage w1 = localStorage w /\
    panels (document w1) =
      (if s then (cartDrawerOpen (document w), is_set (Some p), false)
       else (false, false, true)).
Proof.
  intros Hp Hs.
  assert (H : runs (onSearchToggle input) (localStorage w) (document w) tt
                (localStorage w)
                (if negb (is_set (Some s)) then
                   closeCartDrawer
                     (closeProfileDrawer
                        ((if input then setTimeout 100 else fun d => d)
                           (activateSearchBar (document w))))
                 else closeSearchBar (document w))).
  { unfold onSearchToggle. eapply runs_bind; [apply read_page_runs|].
    rewrite Hs. by eapply toggleSearchBar_runs. }
  destruct (runs_done _ w _ _ _ H) as (w1 & E & Hls & Hd).
  exists w1. rewrite Hd. split; [done|]. split; [done|].
  destruct (document w) as [c pd sb b o m t]. simpl in *. subst.
  by destruct s, input.
Qed.

Lemma search_button_flips_the_bar_witness :
  exists w1,
    onSearchToggle true Samples.fresh = Done tt w1 /\
    panels (document w1) = (false, false, true).
Proof.
  destruct (search_button_flips_the_bar Samples.fresh false false true
              eq_refl eq_refl) as (w1 & E & _ & H).
  exists w1. split; [exact E | exact H].
Defined.

(** X13.  On a page that has the cart drawer and the backdrop, the Escape
    key closes whatever is open and ends normally, whichever of the profile
    drawer, the search bar and the order modal the page has. *)
Theorem escape_closes_everything w key :
  (key <> "Escape" -> onKeydown key w = Done tt w) /\
  exists d1,
    onKeydown "Escape" w =
      Done tt {| localStorage := localStorage w; console := console w;
                 document := d1 |} /\
    panels d1 = (false, false, false) /\
    is_set (orderPlacedModal d1) = false /\
    timers d1 = timers (document w) /\
    (consistent (document w) ->
     backdropVisible d1 = false /\ bodyOverflowHidden d1 = false).
Proof.
  split.
  - intros H. unfold onKeydown.
    by replace (String.eqb key "Escape") with false
      by (symmetry; by apply String.eqb_neq).
  - destruct w as [ls c [cd pd sb b o m t]].
    destruct cd, pd as [[]|], sb as [[]|], m as [[]|];
      (eexists; split; [vm_compute; reflexivity|]);
      (do 3 (split; [done|]));
      intros [H1 H2]; simpl in *; split; congruence.
Qed.

(** X14.  A click on the backdrop closes both drawers. *)
Theorem backdrop_click_closes_the_drawers w :
  (forall p, profileDrawer (document w) = Some p ->
   exists w1, onBackdropClick w = Done tt w1 /\
     localStorage w1 = localStorage w /\
     cartDrawerOpen (document w1) = false /\
     profileDrawer (document w1) = Some false /\
     backdropVisible (document w1) = false /\
     bodyOverflowHidden (document w1) = false /\
     searchBarContainer (document w1) = searchBarContainer (document w)) /\
  (profileDrawer (document w) = None ->
   onBackdropClick w = Throws TypeError w).
Proof.
  split.
  - intros p Hp.
    destruct w as [ls c [cd pd sb b o m t]]. simpl in *. subst.
    eexists. split; [vm_compute; reflexivity|]. by destruct cd.
  - destruct w as [ls c [cd pd sb b o m t]]. simpl. by intros ->.
Qed.

End DrawerProps.

(** ** Searching and choosing a category *)

Module SearchProps.
Import Filter NumProps FilterProps.

Lemma matches_show query category q c col :
  matches query category (show q c col) = matches query category col.
Proof. reflexivity. Qed.

Lemma show_show query category q c col :
  show query category (show q c col) = show query category col.
Proof. reflexivity. Qed.

Lemma map_show_show query category q c cards :
  map (show query category) (map (show q c) cards) =
  map (show query category) cards.
Proof. rewrite map_map. apply map_ext. intros col. apply show_show. Qed.

Lemma foundCount_show query category q c cards :
  foundCount query category (map (show q c) cards) =
  foundCount query category cards.
Proof.
  unfold foundCount. induction cards as [|col cards IH]; [done|].
  cbn [map]. rewrite !filter_cons, matches_show.
  case_decide; cbn [length]; by rewrite IH.
Qed.

(** The message is empty exactly when no filter is set. *)
Lemma messageText_truthy query category found :
  Str.truthy (messageText query category found) =
  Str.truthy query || negb (String.eqb category "all").
Proof.
  unfold messageText.
  destruct (Str.truthy query), (String.eqb category "all"); cbn [andb negb orb];
    try destruct (0 <? found)%nat; reflexivity.
Qed.

(** X15.  Running the filter again changes nothing. *)
Theorem applyFilters_idempotent p :
  applyFilters (applyFilters p) = applyFilters p.
Proof.
  unfold applyFilters at 2 3.
  destruct (productGridContainer p) as [cards|] eqn:E.
  - unfold applyFilters. cbn [productGridContainer state featuredHeading
      title searchInput buttons scrolledTo searchBarActive href resultMessage].
    rewrite foundCount_show, map_show_show.
    f_equal.
    destruct (featuredHeading p); [|done].
    destruct (Str.truthy (messageText _ _ _)).
    + by destruct (Str.truthy _).
    + by destruct (_ && _).
  - unfold applyFilters. by rewrite E.
Qed.

(** X16.  The filter changes the [display] of the cards and nothing else of
    them. *)
Theorem applyFilters_changes_display_only p cards :
  productGridContainer p = Some cards ->
  let query := searchQuery (state p) in
  let category := category (state p) in
  exists cards',
    productGridContainer (applyFilters p) = Some cards' /\
    length cards' = length cards /\
    (forall k col, cards !! k = Some col ->
       exists col',
         cards' !! k = Some col' /\
         productTitle col' = productTitle col /\
         productKeywords col' = productKeywords col /\
         productCategory col' = productCategory col /\
         display col' =
           if matches query category col then "block" else "none") /\
    state (applyFilters p) = state p /\
    title (applyFilters p) = title p /\
    searchInput (applyFilters p) = searchInput p /\
    buttons (applyFilters p) = buttons p /\
    searchBarActive (applyFilters p) = searchBarActive p /\
    href (applyFilters p) = href p.
Proof.
  intros H query category. unfold applyFilters. rewrite H.
  eexists. split; [reflexivity|]. split; [apply length_map|].
  split; [|done]. intros k col Hk.
  exists (show query category col). split; [|done].
  by rewrite list_lookup_fmap, Hk.
Qed.

Lemma applyFilters_changes_display_only_witness :
  exists cards',
    productGridContainer (applyFilters (FilterSamples.home "")) =
      Some cards' /\
    length cards' = 2%nat.
Proof.
  destruct (applyFilters_changes_display_only (FilterSamples.home "")
              [FilterSamples.orion_card; FilterSamples.aura_card] eq_refl)
    as (cards' & H1 & H2 & _).
  exists cards'. split; [exact H1 | exact H2].
Defined.

(** X17.  After the filter has run the page has a result message exactly when
    it has the heading and a filter is set. *)
Theorem message_shown_iff_filter_set p cards :
  productGridContainer p = Some cards ->
  let query := searchQuery (state p) in
  let category := category (state p) in
  (featuredHeading p = false -> resultMessage (applyFilters p) = None) /\
  (featuredHeading p = true -> query = "" -> category = "all" ->
   resultMessage (applyFilters p) = None) /\
  (featuredHeading p = true -> query <> "" \/ category <> "all" ->
   resultMessage (applyFilters p) =
     Some (paragraph
             (messageText query category
                (length (visible (applyFilters p)))))).
Proof.
  intros H query category.
  rewrite (foundCount_visible p cards H).
  unfold applyFilters. rewrite H.
  cbn [resultMessage]. rewrite messageText_truthy.
  fold query category. unfold Str.truthy.
  split; [by intros ->|]. split.
  - intros -> -> ->. done.
  - intros -> Hset.
    destruct (String.eqb_spec query ""), (String.eqb_spec category "all");
      try done. by destruct Hset.
Qed.

Lemma message_shown_iff_filter_set_witness :
  resultMessage (applyFilters (FilterSamples.home "")) = None.
Proof.
  apply (message_shown_iff_filter_set (FilterSamples.home "")
           [FilterSamples.orion_card; FilterSamples.aura_card] eq_refl);
    reflexivity.
Defined.

Lemma filter_length_le {A} (P Q : A -> Prop) `{forall x, Decision (P x)}
    `{forall x, Decision (Q x)} (l : list A) :
  (forall x, P x -> Q x) ->
  (length (filter P l) <= length (filter Q l))%nat.
Proof.
  intros HPQ. induction l as [|x l IH]; [done|].
  rewrite !filter_cons.
  destruct (decide (P x)) as [HP|HP], (decide (Q x)) as [HQ|HQ];
    cbn [length]; try lia.
  destruct HQ. by apply HPQ.
Qed.

(** X18.  A filter only narrows the result: a query shows no more cards than
    no query, a category no more than [all], and never more cards than
    there are. *)
Theorem filters_only_narrow query category cards :
  (foundCount query category cards <= foundCount "" category cards)%nat /\
  (foundCount query category cards <= foundCount query "all" cards)%nat /\
  (foundCount query category cards <= length cards)%nat.
Proof.
  unfold foundCount. split; [|split].
  - apply filter_length_le. intros col.
    unfold matches. rewrite !andb_true_iff. by intros [-> _].
  - apply filter_length_le. intros col.
    unfold matches. rewrite !andb_true_iff. by intros [_ ->].
  - apply length_filter.
Qed.

(** *** Blank input and case *)

Lemma lower_lower c : Str.lower (Str.lower c) = Str.lower c.
Proof. destruct c as [[] [] [] [] [] [] [] []]; reflexivity. Qed.

Lemma toLowerCase_idempotent s :
  Str.toLowerCase (Str.toLowerCase s) = Str.toLowerCase s.
Proof.
  induction s as [|c s IH]; [done|]. simpl. by rewrite lower_lower, IH.
Qed.

Lemma toLowerCase_empty s : Str.toLowerCase s = "" <-> s = "".
Proof. by destruct s. Qed.

Lemma trimStart_empty s :
  Str.trimStart s = "" <-> Str.all_chars Str.is_white s = true.
Proof.
  induction s as [|c s IH]; [done|]. simpl.
  destruct (Str.is_white c); simpl; [done|]. split; discriminate.
Qed.

Lemma trimStart_white s :
  Str.all_chars Str.is_white (Str.trimStart s) = true -> Str.trimStart s = "".
Proof.
  induction s as [|c s IH]; [done|]. simpl.
  destruct (Str.is_white c) eqn:E; [done|]. simpl. by rewrite E.
Qed.

Lemma all_chars_rev_app P s : forall acc,
  Str.all_chars P (String.rev_app s acc) =
  Str.all_chars P s && Str.all_chars P acc.
Proof.
  induction s as [|c s IH]; intros acc; [done|]. simpl.
  rewrite IH. simpl. by destruct (P c), (Str.all_chars P s).
Qed.

Lemma rev_app_empty s : forall acc,
  String.rev_app s acc = "" <-> s = "" /\ acc = "".
Proof.
  induction s as [|c s IH]; intros acc; simpl.
  - split; [by intros -> | by intros [_ ->]].
  - rewrite IH. split; [by intros [_ ?] | by intros [? _]].
Qed.

(** The trimmed text is empty exactly when the text is white space. *)
Lemma trim_empty s :
  Str.trim s = "" <-> Str.all_chars Str.is_white s = true.
Proof.
  unfold Str.trim, Str.trimEnd, String.rev.
  rewrite rev_app_empty, trimStart_empty, all_chars_rev_app.
  cbn [Str.all_chars]. rewrite andb_true_r. split.
  - intros [H _]. by apply trimStart_empty, trimStart_white.
  - intros H. split; [|done]. by apply trimStart_empty in H as ->.
Qed.

Lemma blank_query v :
  Str.truthy (Str.toLowerCase (Str.trim v)) =
  negb (Str.all_chars Str.is_white v).
Proof.
  unfold Str.truthy. f_equal. apply eq_true_iff_eq.
  rewrite String.eqb_eq, toLowerCase_empty. apply trim_empty.
Qed.

Lemma applyFilters_frame p :
  state (applyFilters p) = state p /\ title (applyFilters p) = title p /\
  searchInput (applyFilters p) = searchInput p /\
  buttons (applyFilters p) = buttons p /\
  searchBarActive (applyFilters p) = searchBarActive p /\
  href (applyFilters p) = href p.
Proof. unfold applyFilters. by destruct (productGridContainer p). Qed.

(** X19.  [performSearch] on a page that is not the home page, for an input
    of 7-bit units: white space does nothing, anything else leads to the
    home page with the query in the address. On the home page it never
    leaves the page. *)
Theorem performSearch_redirects_elsewhere p v :
  searchInput p = Some v -> Str.is_ascii v = true ->
  let query := Str.toLowerCase (Str.trim v) in
  (Str.includes (title p) HOME_TITLE = false ->
   Str.all_chars Str.is_white v = true -> performSearch p = p) /\
  (Str.includes (title p) HOME_TITLE = false ->
   Str.all_chars Str.is_white v = false ->
   href (performSearch p) =
     Some ("home.html?search=" +:+ encodeURIComponent query) /\
   searchBarActive (performSearch p) = false /\
   state (performSearch p) = state p /\
   productGridContainer (performSearch p) = productGridContainer p /\
   resultMessage (performSearch p) = resultMessage p) /\
  (Str.includes (title p) HOME_TITLE = true ->
   href (performSearch p) = href p /\
   state (performSearch p) =
     {| searchQuery := query; category := category (state p) |}).
Proof.
  intros Hv Hascii query. subst query. unfold performSearch. rewrite Hv.
  cbv zeta. rewrite blank_query.
  split; [|split].
  - by intros -> ->.
  - by intros -> ->.
  - intros ->.
    by destruct (applyFilters_frame
                   (set_state
                      {| searchQuery := Str.toLowerCase (Str.trim v);
                         category := category (state p) |} p))
      as (-> & _ & _ & _ & _ & ->).
Qed.

Lemma performSearch_redirects_elsewhere_witness :
  performSearch (FilterSamples.collection "   ") =
    FilterSamples.collection "   " /\
  href (performSearch (FilterSamples.collection " Dive Watch ")) =
    Some "home.html?search=dive%20watch" /\
  href (performSearch (FilterSamples.home "Orion")) = None.
Proof.
  pose proof (performSearch_redirects_elsewhere
                (FilterSamples.collection "   ") "   " eq_refl eq_refl)
    as (H1 & _).
  pose proof (performSearch_redirects_elsewhere
                (FilterSamples.collection " Dive Watch ") " Dive Watch "
                eq_refl eq_refl)
    as (_ & H2 & _).
  pose proof (performSearch_redirects_elsewhere
                (FilterSamples.home "Orion") "Orion" eq_refl eq_refl)
    as (_ & _ & H3).
  split; [by apply H1|]. split; [by apply H2 | by apply H3].
Defined.

(** X20.  [filterByCategory] takes the category in any case: it keeps the
    query, stores the category in lower case and marks exactly the buttons
    of that category, compared in lower case. *)
Theorem filterByCategory_ignores_case c p :
  let p' := filterByCategory (Some c) p in
  filterByCategory (Some (Str.toLowerCase c)) p = p' /\
  state p' = {| searchQuery := searchQuery (state p);
                category := Str.toLowerCase c |} /\
  map dataCategory (buttons p') = map dataCategory (buttons p) /\
  Forall (fun b => active b = true <->
                   Str.toLowerCase (dataCategory b) = Str.toLowerCase c)
         (buttons p') /\
  href p' = href p.
Proof.
  cbv zeta. split.
  { unfold filterByCategory. by rewrite toLowerCase_idempotent. }
  unfold filterByCategory.
  match goal with
  | |- context [applyFilters ?q] =>
      destruct (applyFilters_frame q) as (-> & _ & _ & -> & _ & ->)
  end.
  cbn [state buttons href]. split; [done|]. split; [|split; [|done]].
  - rewrite map_map. by apply map_ext.
  - apply Forall_forall. intros b Hb.
    apply list_elem_of_In, in_map_iff in Hb as (b0 & <- & _).
    cbn [active dataCategory]. apply String.eqb_eq.
Qed.

(** X21.  Searching and choosing a category on the home page give the same
    cards, message and buttons in either order. *)
Theorem search_and_category_commute p c v :
  Str.includes (title p) HOME_TITLE = true ->
  searchInput p = Some v ->
  let a := performSearch (filterByCategory (Some c) p) in
  let b := filterByCategory (Some c) (performSearch p) in
  state a = state b /\
  productGridContainer a = productGridContainer b /\
  resultMessage a = resultMessage b /\
  buttons a = buttons b /\
  visible a = visible b.
Proof.
  intros Ht Hv. cbv zeta.
  assert (H : state (performSearch (filterByCategory (Some c) p)) =
              state (filterByCategory (Some c) (performSearch p)) /\
              productGridContainer
                (performSearch (filterByCategory (Some c) p)) =
              productGridContainer
                (filterByCategory (Some c) (performSearch p)) /\
              resultMessage (performSearch (filterByCategory (Some c) p)) =
              resultMessage (filterByCategory (Some c) (performSearch p)) /\
              buttons (performSearch (filterByCategory (Some c) p)) =
              buttons (filterByCategory (Some c) (performSearch p))).
  { destruct p as [st t i g fh rm bs sc sa h]. cbn [title searchInput] in *.
    subst i. unfold performSearch, filterByCategory.
    destruct g as [cards|].
    - unfold applyFilters, set_state.
      cbn [productGridContainer state featuredHeading title searchInput
           buttons scrolledTo searchBarActive href resultMessage
           searchQuery category].
      rewrite Ht.
      cbn [productGridContainer state featuredHeading title searchInput
           buttons scrolledTo searchBarActive href resultMessage
           searchQuery category].
      by rewrite !foundCount_show, !map_show_show.
    - unfold applyFilters, set_state.
      cbn [productGridContainer state featuredHeading title searchInput
           buttons scrolledTo searchBarActive href resultMessage
           searchQuery category].
      rewrite Ht.
      by cbn [productGridContainer state featuredHeading title searchInput
              buttons scrolledTo searchBarActive href resultMessage
              searchQuery category]. }
  destruct H as (H1 & H2 & H3 & H4). repeat split; try done.
  unfold visible. by rewrite H2.
Qed.

Lemma search_and_category_commute_witness :
  visible (performSearch
             (filterByCategory (Some "Dress") (FilterSamples.home "aura"))) =
  visible (filterByCategory (Some "Dress")
             (performSearch (FilterSamples.home "aura"))).
Proof.
  apply (search_and_category_commute (FilterSamples.home "aura") "Dress"
           "aura"); reflexivity.
Defined.

(** X22.  With white space in the search input, choosing the category [all]
    and searching shows every card of the home page and leaves no result
    message. *)
Theorem clearing_the_filters_shows_every_card p v cards :
  Str.includes (title p) HOME_TITLE = true ->
  searchInput p = Some v ->
  Str.all_chars Str.is_white v = true ->
  productGridContainer p = Some cards ->
  let p' := performSearch (filterByCategory (Some "all") p) in
  state p' = filterState /\
  productGridContainer p' = Some (map (set_display "block") cards) /\
  visible p' = map (set_display "block") cards /\
  resultMessage p' = None /\
  (featuredHeading p = true -> scrolledTo p' = Some Heading).
Proof.
  intros Ht Hv Hw Hg. cbv zeta.
  assert (Hq : Str.toLowerCase (Str.trim v) = "").
  { apply toLowerCase_empty, trim_empty, Hw. }
  destruct p as [st t i g fh rm bs sc sa h].
  cbn [title searchInput productGridContainer featuredHeading] in *.
  subst i g. unfold performSearch, filterByCategory, applyFilters, set_state.
  cbn [productGridContainer state featuredHeading title searchInput
       buttons scrolledTo searchBarActive href resultMessage
       searchQuery category].
  rewrite Ht, Hq.
  cbn [productGridContainer state featuredHeading title searchInput
       buttons scrolledTo searchBarActive href resultMessage
       searchQuery category].
  rewrite map_show_show.
  assert (Hall : map (show "" (Str.toLowerCase "all")) cards =
                 map (set_display "block") cards).
  { apply map_ext. intros col. reflexivity. }
  rewrite Hall. split; [done|]. split; [done|]. split.
  - unfold visible. simpl. clear.
    induction cards as [|col cards IH]; [done|].
    cbn [map]. rewrite filter_cons_True by done. by rewrite IH.
  - split; [by rewrite andb_false_r|]. intros ->. reflexivity.
Qed.

Lemma clearing_the_filters_shows_every_card_witness :
  visible (performSearch
             (filterByCategory (Some "all") (FilterSamples.home "  "))) =
  map (set_display "block")
      [FilterSamples.orion_card; FilterSamples.aura_card].
Proof.
  apply (clearing_the_filters_shows_every_card (FilterSamples.home "  ")
           "  " [FilterSamples.orion_card; FilterSamples.aura_card]);
    reflexivity.
Defined.

End SearchProps.
